(** * Verification of the documentation ingestion and search tools

    Shallow embedding of
    - [src/src/port_tools/parsers/doc_parser.py] ([DocParser]),
    - the front-matter loader it calls ([frontmatter.loads] of the
      python-frontmatter library),
    - [src/src/port_tools/ingester.py] ([DocumentIngester]) and the
      [PortClient] calls it makes
      ([src/src/port_tools/clients/port_client.py]),
    - [src/src/port_tools/fetchers/local_fetcher.py] ([LocalFetcher]),
    - [src/src/port_tools/search/bot.py] ([DocumentSearcher],
      [DocumentationBot]).

    Strings are Rocq [string]s of ASCII characters; the Python string
    operations used by the code ([lower], [split], [strip], [title], [in],
    slicing) are written out for that alphabet.  Non-ASCII characters are
    outside the model. *)

From Stdlib Require Import String Ascii List ZArith Lia Bool Arith.
From Stdlib Require Import Numbers.DecimalString Sorting.Sorted.
Import ListNotations.
Open Scope string_scope.

(** ** Python string primitives on ASCII *)
Module PyStr.

Definition nl : ascii := "010"%char.

(** [str.isspace] on ASCII: \t \n \v \f \r, \x1c-\x1f and the space.
    Python's [re] class [\s] on str patterns uses the same predicate. *)
Definition is_space (c : ascii) : bool :=
  let n := nat_of_ascii c in
  (((9 <=? n) && (n <=? 13)) || ((28 <=? n) && (n <=? 32)))%nat.

Definition is_upper (c : ascii) : bool :=
  let n := nat_of_ascii c in ((65 <=? n) && (n <=? 90))%nat.

Definition is_lower (c : ascii) : bool :=
  let n := nat_of_ascii c in ((97 <=? n) && (n <=? 122))%nat.

Definition is_cased (c : ascii) : bool := is_upper c || is_lower c.

Definition lower_char (c : ascii) : ascii :=
  if is_upper c then ascii_of_nat (nat_of_ascii c + 32)%nat else c.

Definition upper_char (c : ascii) : ascii :=
  if is_lower c then ascii_of_nat (nat_of_ascii c - 32)%nat else c.

(** [s.lower()] *)
Fixpoint lower (s : string) : string :=
  match s with
  | EmptyString => EmptyString
  | String c r => String (lower_char c) (lower r)
  end.

(** [s.replace(a, b)] for one-character [a] and [b] *)
Fixpoint replace (a b : ascii) (s : string) : string :=
  match s with
  | EmptyString => EmptyString
  | String c r => String (if Ascii.eqb c a then b else c) (replace a b r)
  end.

(** [s.title()]: a cased character is upper-cased when the previous
    character is not cased, lower-cased otherwise. *)
Fixpoint title_go (prev_cased : bool) (s : string) : string :=
  match s with
  | EmptyString => EmptyString
  | String c r =>
      if is_cased c
      then String (if prev_cased then lower_char c else upper_char c) (title_go true r)
      else String c (title_go false r)
  end.

Definition title (s : string) : string := title_go false s.

Fixpoint prefixb (p s : string) : bool :=
  match p, s with
  | EmptyString, _ => true
  | String a p', String b s' => Ascii.eqb a b && prefixb p' s'
  | _, _ => false
  end.

(** [p in s] *)
Fixpoint contains (p s : string) : bool :=
  prefixb p s ||
  match s with
  | EmptyString => false
  | String _ s' => contains p s'
  end.

Fixpoint lstrip (s : string) : string :=
  match s with
  | String c r => if is_space c then lstrip r else s
  | EmptyString => EmptyString
  end.

Fixpoint rstrip (s : string) : string :=
  match s with
  | EmptyString => EmptyString
  | String c r =>
      let r' := rstrip r in
      if is_space c && String.eqb r' "" then "" else String c r'
  end.

(** [s.strip()] *)
Definition strip (s : string) : string := rstrip (lstrip s).

(** [s.split()]: the first component is the word before the first
    whitespace character, the second the words of the rest. *)
Fixpoint split_go (s : string) : string * list string :=
  match s with
  | EmptyString => ("", [])
  | String c r =>
      let (w, ws) := split_go r in
      if is_space c then ("", if String.eqb w "" then ws else w :: ws)
      else (String c w, ws)
  end.

Definition split (s : string) : list string :=
  let (w, ws) := split_go s in if String.eqb w "" then ws else w :: ws.

(** [s.split(d)] for a one-character separator [d] *)
Fixpoint split_on_go (d : ascii) (s : string) : string * list string :=
  match s with
  | EmptyString => ("", [])
  | String c r =>
      let (w, ws) := split_on_go d r in
      if Ascii.eqb c d then ("", w :: ws) else (String c w, ws)
  end.

Definition split_on (d : ascii) (s : string) : list string :=
  let (w, ws) := split_on_go d s in w :: ws.

(** [s[:n]] and [s[n:]] for [n >= 0] *)
Definition take (n : nat) (s : string) : string := substring 0 n s.

Fixpoint drop (n : nat) (s : string) : string :=
  match n, s with
  | O, _ => s
  | S n', String _ r => drop n' r
  | S _, EmptyString => EmptyString
  end.

(** [s.rsplit(' ', 1)[0]]: the part before the last space, or [s] *)
Fixpoint before_last_space (s : string) : option string :=
  match s with
  | EmptyString => None
  | String c r =>
      match before_last_space r with
      | Some p => Some (String c p)
      | None => if Ascii.eqb c " " then Some "" else None
      end
  end.

Definition rsplit_space_head (s : string) : string :=
  match before_last_space s with Some p => p | None => s end.

Definition last_char_is_nl (s : string) : bool :=
  match String.get (String.length s - 1)%nat s with
  | Some c => Ascii.eqb c nl
  | None => false
  end.

(** [str(n)] for a non-negative integer *)
Definition of_nat (n : nat) : string := NilEmpty.string_of_uint (Nat.to_uint n).

End PyStr.

Import PyStr.

(** ** YAML / JSON values and Python truthiness *)
Set Warnings "-register-all".
Inductive yval : Type :=
| YNull
| YBool (b : bool)
| YInt (z : Z)
| YStr (s : string)
| YSeq (l : list yval)
| YMap (m : list (string * yval)).

(** [bool(v)] *)
Definition truthy (v : yval) : bool :=
  match v with
  | YNull => false
  | YBool b => b
  | YInt z => negb (Z.eqb z 0)
  | YStr s => negb (String.eqb s "")
  | YSeq l => negb (match l with [] => true | _ => false end)
  | YMap m => negb (match m with [] => true | _ => false end)
  end.

(** A front-matter mapping, as the dict [post.metadata]. *)
Definition fmdict := list (string * yval).

Fixpoint fm_get (k : string) (fm : fmdict) : option yval :=
  match fm with
  | [] => None
  | (k', v) :: fm' => if String.eqb k k' then Some v else fm_get k fm'
  end.

(** [fm.get(k) or fallback] *)
Definition fm_or (k : string) (fm : fmdict) (fallback : yval) : yval :=
  match fm_get k fm with
  | Some v => if truthy v then v else fallback
  | None => fallback
  end.

(** ** The front-matter loader ([frontmatter.loads])

    python-frontmatter tries its handlers in order (YAML, JSON, and TOML
    when the [toml] package is installed).  A handler is given by its
    boundary pattern, anchored at a line start, the wrapping its [split]
    applies to the text between the first two boundaries, and its
    [load]. *)
Record Handler : Type := {
  (** length of the boundary match at the head of a string at which [^]
      holds, if the pattern matches there *)
  h_boundary : string -> option nat;
  (** [split] returns [wrap fm] for the text [fm] between the boundaries *)
  h_wrap : string -> string;
  (** [load]; [None] when it raises (malformed YAML or JSON) *)
  h_load : string -> option yval
}.

(** Greedy [\s*] followed by [$] (MULTILINE): the length of the longest
    whitespace prefix ending at the end of the string or before a [\n]. *)
Fixpoint ws_eol_len (t : string) : option nat :=
  match t with
  | EmptyString => Some 0
  | String c t' =>
      match (if is_space c then option_map S (ws_eol_len t') else None) with
      | Some k => Some k
      | None => if Ascii.eqb c nl then Some 0 else None
      end
  end.

Fixpoint char_run (d : ascii) (s : string) : nat :=
  match s with
  | String c r => if Ascii.eqb c d then S (char_run d r) else 0
  | EmptyString => 0
  end.

(** [^-{3,}\s*$] ([d] = '-') and [^\+{3,}\s*$] ([d] = '+'), matched at
    the head of [s].  Giving back dashes cannot help: the next character
    would be [d], which is neither whitespace nor a line end. *)
Definition fence_boundary (d : ascii) (s : string) : option nat :=
  let k := char_run d s in
  if (k <? 3)%nat then None
  else option_map (fun w => k + w)%nat (ws_eol_len (drop k s)).

(** [^(?:{|})$] *)
Definition brace_boundary (s : string) : option nat :=
  match s with
  | String c r =>
      if (Ascii.eqb c "{" || Ascii.eqb c "}") &&
         (match r with EmptyString => true | String c' _ => Ascii.eqb c' nl end)
      then Some 1 else None
  | EmptyString => None
  end.

Definition yaml_handler (yaml_load : string -> option yval) : Handler :=
  {| h_boundary := fence_boundary "-"; h_wrap := fun fm => fm; h_load := yaml_load |}.

Definition json_handler (json_load : string -> option yval) : Handler :=
  {| h_boundary := brace_boundary; h_wrap := fun fm => "{" ++ fm ++ "}";
     h_load := json_load |}.

Definition toml_handler (toml_load : string -> option yval) : Handler :=
  {| h_boundary := fence_boundary "+"; h_wrap := fun fm => fm; h_load := toml_load |}.

(** The handler list of python-frontmatter without the [toml] package. *)
Definition default_handlers (yaml_load json_load : string -> option yval) : list Handler :=
  [yaml_handler yaml_load; json_handler json_load].

Section Frontmatter.

Variable handlers : list Handler.

(** [detect_format(text, handlers)]: the first handler whose boundary
    matches at the start of the text ([FM_BOUNDARY.match]). *)
Fixpoint detect_in (hs : list Handler) (text : string) : option Handler :=
  match hs with
  | [] => None
  | h :: hs' =>
      match h_boundary h text with
      | Some _ => Some h
      | None => detect_in hs' text
      end
  end.

Definition detect_format (text : string) : option Handler := detect_in handlers text.

(** Search for the next boundary match (MULTILINE [^]: at the start or
    after a [\n]).  [bol] says whether [^] holds at the head of [s].
    Returns the text before the match, the text after it, and whether
    [^] holds after it. *)
Fixpoint find_boundary (bm : string -> option nat) (bol : bool) (s : string)
  : option (string * string * bool) :=
  match (if bol then bm s else None) with
  | Some n => Some ("", drop n s, last_char_is_nl (take n s))
  | None =>
      match s with
      | EmptyString => None
      | String c s' =>
          match find_boundary bm (Ascii.eqb c nl) s' with
          | Some (p, r, b) => Some (String c p, r, b)
          | None => None
          end
      end
  end.

(** [_, fm, content = FM_BOUNDARY.split(text, 2)]; [None] is the
    [ValueError] raised when fewer than two boundaries exist. *)
Definition split2 (bm : string -> option nat) (text : string) : option (string * string) :=
  match find_boundary bm true text with
  | Some (_, r1, b1) =>
      match find_boundary bm b1 r1 with
      | Some (fm, content, _) => Some (fm, content)
      | None => None
      end
  | None => None
  end.

(** [handler or detect_format(text, handlers)]: [loads] detects on the
    text as given, [parse] again on the stripped text. *)
Definition select_handler (text0 : string) : option Handler :=
  match detect_format text0 with
  | Some h => Some h
  | None => detect_format (strip text0)
  end.

(** [frontmatter.parse] followed by [Post(content, handler, **metadata)];
    [None] when an exception escapes: [handler.load] raised, or the
    metadata has a key [content] or [handler], which collides with
    [Post]'s own parameters (a [TypeError]).  A YAML mapping with a
    non-string key also makes [Post(..., **metadata)] raise; a loader of this
    model reports it as a failure of [load]. *)
Definition fm_loads (text0 : string) : option (fmdict * string) :=
  let text := strip text0 in
  match select_handler text0 with
  | None => Some ([], text)
  | Some h =>
      match split2 (h_boundary h) text with
      | None => Some ([], text)
      | Some (fm, content) =>
          match h_load h (h_wrap h fm) with
          | None => None
          | Some (YMap m) =>
              match fm_get "content" m, fm_get "handler" m with
              | None, None => Some (m, strip content)
              | _, _ => None
              end
          | Some _ => Some ([], strip content)
          end
      end
  end.

(** [DocParser.extract_frontmatter] *)
Definition extract_frontmatter (content : string) : fmdict * string :=
  match fm_loads content with
  | Some (metadata, body) => (metadata, body)
  | None => ([], content)
  end.

End Frontmatter.

(** ** [pathlib.PurePosixPath] *)
Module PyPath.

(** The components after the anchor: empty and [.] components dropped. *)
Definition tail (p : string) : list string :=
  filter (fun c => negb (String.eqb c "" || String.eqb c ".")) (split_on "/" p).

Definition root (p : string) : list string :=
  if prefixb "/" p
  then if prefixb "//" p && negb (prefixb "///" p) then ["//"] else ["/"]
  else [].

(** [Path(p).parts] *)
Definition parts (p : string) : list string := root p ++ tail p.

(** [Path(p).name] *)
Definition name (p : string) : string := last (tail p) "".

Fixpoint rfind (d : ascii) (s : string) : option nat :=
  match s with
  | EmptyString => None
  | String c r =>
      match rfind d r with
      | Some i => Some (S i)
      | None => if Ascii.eqb c d then Some 0 else None
      end
  end.

(** [Path(p).stem]: the name without its suffix, where the suffix starts
    at the last dot [i] of the name when [0 < i < len(name) - 1]. *)
Definition stem (p : string) : string :=
  let n := name p in
  match rfind "." n with
  | Some i => if (0 <? i)%nat && (i <? String.length n - 1)%nat then take i n else n
  | None => n
  end.

End PyPath.

(** ** The heading pattern [re.search(r'^#\s+(.+)$', content, re.MULTILINE)] *)
Module Heading.

(** The maximal prefix without [\n]. *)
Fixpoint line_prefix (t : string) : string :=
  match t with
  | EmptyString => EmptyString
  | String c r => if Ascii.eqb c nl then EmptyString else String c (line_prefix r)
  end.

(** [(.+)$]: [.] excludes only [\n], so the greedy group stops at a line
    end, where [$] holds; the group must not be empty. *)
Definition dot_plus_eol (t : string) : option string :=
  let g := line_prefix t in
  if String.eqb g "" then None else Some g.

(** [\s*(.+)$] with greedy backtracking: consuming one more whitespace
    character is tried first. *)
Fixpoint ws_star_group (t : string) : option string :=
  match t with
  | EmptyString => dot_plus_eol t
  | String c t' =>
      if is_space c
      then match ws_star_group t' with
           | Some g => Some g
           | None => dot_plus_eol t
           end
      else dot_plus_eol t
  end.

(** [#\s+(.+)$] at the head of [s] *)
Definition heading_at (s : string) : option string :=
  match s with
  | String c (String c' r) =>
      if Ascii.eqb c "#" && is_space c' then ws_star_group r else None
  | _ => None
  end.

(** Scan the positions left to right; [bol] says whether [^] holds. *)
Fixpoint search_go (bol : bool) (s : string) : option string :=
  match (if bol then heading_at s else None) with
  | Some g => Some g
  | None =>
      match s with
      | EmptyString => None
      | String c s' => search_go (Ascii.eqb c nl) s'
      end
  end.

(** [title_match.group(1)], if the pattern matches *)
Definition search (content : string) : option string := search_go true content.

End Heading.

(** ** [DocMetadata]

    [title], [summary] and [category] come from the front matter when it
    has them, so they hold whatever value the front matter gives. *)
Record DocMetadata : Type := {
  title : yval;
  content : string;
  source : string;
  file_path : string;
  last_updated : string;
  summary : yval;
  category : yval;
  tags : list string;
  repository_url : option string;
  file_url : option string;
  word_count : nat;
  reading_time : nat
}.

(** ** [DocParser] *)

(** [DocParser.extract_title] *)
Definition extract_title (content source_path : string) : string :=
  match Heading.search content with
  | Some g => strip g
  | None => PyStr.title (replace "_" " " (replace "-" " " (PyPath.stem source_path)))
  end.

(** Lines 56-61 of [generate_summary], on the rendered plain text:
    [summary = ' '.join(text.split()[:50])] and its truncation. *)
Definition summarize_text (text : string) (max_length : nat) : string :=
  let summary := String.concat " " (firstn 50 (split (strip text))) in
  if (max_length <? String.length summary)%nat
  then rsplit_space_head (take max_length summary) ++ "..."
  else summary.

(** [DocParser.categorize_document] *)
Definition categorize_document (source_path content : string) : string :=
  let path_lower := lower source_path in
  if contains "api" path_lower || contains "reference" path_lower then "API Reference"
  else if contains "guide" path_lower || contains "tutorial" path_lower then "Guide"
  else if contains "example" path_lower then "Example"
  else if contains "concept" path_lower then "Concept"
  else "Documentation".

Definition tech_terms : list string :=
  ["api"; "rest"; "graphql"; "webhook"; "python"; "javascript";
   "docker"; "kubernetes"; "aws"; "azure"; "gcp"; "integration"].

(** [sorted(set(l))] on strings: Python compares strings by code point,
    which on ASCII is [String.compare]. *)
Fixpoint insert_uniq (x : string) (l : list string) : list string :=
  match l with
  | [] => [x]
  | y :: l' =>
      match String.compare x y with
      | Lt => x :: l
      | Eq => l
      | Gt => y :: insert_uniq x l'
      end
  end.

Definition sorted_set (l : list string) : list string := fold_right insert_uniq [] l.

(** The order of [sorted]: [a] sorts strictly before [b]. *)
Definition str_lt (a b : string) : Prop := String.compare a b = Lt.

(** [DocParser.extract_tags] *)
Definition extract_tags (source_path content : string) : list string :=
  let path_parts := PyPath.parts source_path in
  let dir_tag :=
    if (1 <? List.length path_parts)%nat
    then [replace "_" "-" (lower (nth (List.length path_parts - 2) path_parts ""))]
    else [] in
  let content_lower := lower content in
  sorted_set (dir_tag ++ filter (fun term => contains term content_lower) tech_terms).

(** [set(fm.get('tags', []))]: a list of strings gives its items, a
    string its characters, a mapping its keys; [None] when [set] raises
    (null, boolean, number, or an unhashable item).  A list with
    non-string scalar items is outside the model and also gives [None]. *)
Fixpoint str_items (l : list yval) : option (list string) :=
  match l with
  | [] => Some []
  | YStr s :: l' => option_map (cons s) (str_items l')
  | _ :: _ => None
  end.

Fixpoint chars (s : string) : list string :=
  match s with
  | EmptyString => []
  | String c r => String c EmptyString :: chars r
  end.

Definition fm_tags (fm : fmdict) : option (list string) :=
  match fm_get "tags" fm with
  | None => Some []
  | Some (YSeq l) => str_items l
  | Some (YStr s) => Some (chars s)
  | Some (YMap m) => Some (map fst m)
  | Some _ => None
  end.

(** [max(1, round(word_count / 200))], [round] rounding halves to even *)
Definition reading_time_of (word_count : nat) : nat :=
  let q := word_count / 200 in
  let r := word_count mod 200 in
  let rounded :=
    if (r <? 100)%nat then q
    else if (100 <? r)%nat then S q
    else if Nat.even q then q else S q in
  Nat.max 1 rounded.

Section Parser.

Variable handlers : list Handler.

(** [markdown.markdown] followed by [BeautifulSoup(...).get_text()] *)
Variable render_text : string -> string.

(** [DocParser.generate_summary] *)
Definition generate_summary (content : string) (max_length : nat) : string :=
  summarize_text (render_text content) max_length.

(** [DocParser.parse]; [None] when it raises. *)
Definition parse (content0 source0 file_path0 last_updated0 : string)
  (repo_url file_url0 : option string) : option DocMetadata :=
  let (fm, main_content) := extract_frontmatter handlers content0 in
  let title0 := fm_or "title" fm (YStr (extract_title main_content file_path0)) in
  let summary0 := fm_or "description" fm (YStr (generate_summary main_content 250)) in
  let category0 := fm_or "category" fm (YStr (categorize_document file_path0 main_content)) in
  match fm_tags fm with
  | None => None
  | Some fm_tag_list =>
      let tags0 := sorted_set (fm_tag_list ++ extract_tags file_path0 main_content) in
      let word_count0 := List.length (split main_content) in
      Some {| title := title0; content := main_content; summary := summary0;
              category := category0; tags := tags0; source := source0;
              file_path := file_path0; last_updated := last_updated0;
              repository_url := repo_url; file_url := file_url0;
              word_count := word_count0;
              reading_time := reading_time_of word_count0 |}
  end.

End Parser.

(** ** [DocumentIngester._construct_entity_payload]: the identifier *)
Definition entity_identifier (source0 file_path0 : string) : string :=
  replace " " "-" (lower (source0 ++ "/" ++ file_path0)).

(** ** Search ([src/src/port_tools/search/bot.py]) *)
Module Search.

(** The entity properties the bot reads. *)
Record Props : Type := {
  p_summary : option string;
  p_category : option string;
  p_tags : option (list string)
}.

(** A catalog entity as returned by the search endpoint; [None] is a
    missing key. *)
Record Entity : Type := {
  e_identifier : option string;
  e_title : option string;
  e_properties : option Props
}.

(** [result.get('identifier', '')] *)
Definition ident (e : Entity) : string :=
  match e_identifier e with Some i => i | None => "" end.

(** Outcome of the HTTP call [requests.post(...)], [raise_for_status()]
    and [response.json()] with [data.get('entities', [])]: the entity
    list, or the error raised on the way. *)
Inductive Remote : Type :=
| RemoteOk (entities : list Entity)
| RemoteError (error : string).

(** The structured result [{'ok': True, 'entities': ...}] or
    [{'ok': False, 'error': ...}]. *)
Inductive SearchResult : Type :=
| Ok (entities : list Entity)
| Failed (error : string).

(** [l[:k]] for a Python integer [k]: a negative [k] drops [-k] items
    from the end. *)
Definition py_take {A} (l : list A) (k : Z) : list A :=
  if (0 <=? k)%Z then firstn (Z.to_nat k) l
  else firstn (List.length l - Z.to_nat (- k)) l.

Section Searcher.

(** The remote search endpoint, queried with a search term and a limit. *)
Variable remote : string -> Z -> Remote.

(** [DocumentSearcher.search_entities]: every exception is caught. *)
Definition search_entities (search_term : string) (limit : Z) : SearchResult :=
  match remote search_term limit with
  | RemoteOk es => Ok es
  | RemoteError e => Failed e
  end.

Definition ok_entities (r : SearchResult) (k : Z) : list Entity :=
  match r with
  | Ok es => py_take es k
  | Failed _ => []
  end.

(** [all_results] before deduplication: up to [max_results // 2] direct
    results, then for a query of several words up to [max_results // 4]
    results per word longer than 3 characters. *)
Definition gather (query : string) (max_results : Z) : list Entity :=
  let direct := ok_entities (search_entities query 25) (max_results / 2) in
  let keywords := split query in
  let per_keyword :=
    if (1 <? List.length keywords)%nat
    then flat_map (fun keyword =>
                     if (3 <? String.length keyword)%nat
                     then ok_entities (search_entities keyword 25) (max_results / 4)
                     else []) keywords
    else [] in
  direct ++ per_keyword.

(** The loop over [all_results] with [seen_identifiers]. *)
Fixpoint dedup_go (seen : list string) (l : list Entity) : list Entity :=
  match l with
  | [] => []
  | r :: l' =>
      if existsb (String.eqb (ident r)) seen then dedup_go seen l'
      else r :: dedup_go (ident r :: seen) l'
  end.

Definition dedup (l : list Entity) : list Entity := dedup_go [] l.

(** [DocumentSearcher.multi_strategy_search] *)
Definition multi_strategy_search (query : string) (max_results : Z) : list Entity :=
  py_take (dedup (gather query max_results)) max_results.

(** [DocumentationBot._build_response_from_results] *)
Definition render_result (i : nat) (e : Entity) : string :=
  let title0 := match e_title e with Some t => t | None => "Untitled" end in
  let summary0 := match e_properties e with
                  | Some p => match p_summary p with Some s => s | None => "No summary available." end
                  | None => "No summary available." end in
  let category0 := match e_properties e with
                   | Some p => match p_category p with Some c => c | None => "General" end
                   | None => "General" end in
  of_nat i ++ ". **" ++ title0 ++ "** (Category: " ++ category0 ++ ")" ++ String nl EmptyString
  ++ "   *Summary:* " ++ take 250 summary0
  ++ (if (250 <? String.length summary0)%nat then "..." else "")
  ++ String nl (String nl EmptyString).

Fixpoint render_from (i : nat) (l : list Entity) : string :=
  match l with
  | [] => ""
  | e :: l' => render_result i e ++ render_from (S i) l'
  end.

Definition response_header (query : string) : string :=
  "Based on your query '" ++ query ++ "', here are the most relevant documents I found:"
  ++ String nl (String nl EmptyString).

Definition overflow_line (n : nat) : string :=
  if (5 <? n)%nat
  then "...and " ++ of_nat (n - 5) ++ " more results were found." ++ String nl EmptyString
  else "".

Definition build_response_from_results (query : string) (results : list Entity) : string :=
  response_header query ++ render_from 1 (firstn 5 results) ++ overflow_line (List.length results).

(** [DocumentationBot._no_results_response] *)
Definition no_results_response (query : string) : string :=
  "I couldn't find any specific documentation for '" ++ query ++ "'."
  ++ String nl (String nl EmptyString)
  ++ "You could try:" ++ String nl EmptyString
  ++ "- Using different or more general keywords." ++ String nl EmptyString
  ++ "- Checking for typos in your query." ++ String nl EmptyString.

(** [DocumentationBot.search_and_respond] ([max_results] defaults to 10) *)
Definition search_and_respond (query : string) : string :=
  match multi_strategy_search query 10 with
  | [] => no_results_response query
  | results => build_response_from_results query results
  end.

End Searcher.

End Search.

(** ** Sample loaders and inputs *)
Module Samples.

Definition nlS : string := String nl EmptyString.
Definition dq : ascii := "034"%char.

(** A loader for the flat subset of YAML used by the sample documents:
    one [key: value] per line, where the value is a double-quoted empty
    string, a flow list [[a, b]], empty or [null], or a plain scalar.
    A line without a colon is reported as a load failure. *)
Definition flat_scalar (v : string) : yval :=
  if String.eqb v (String dq (String dq EmptyString)) then YStr ""
  else if String.eqb v "" || String.eqb v "null" then YNull
  else if prefixb "[" v && prefixb "]" (match String.length v with
                                        | O => ""
                                        | S k => drop k v end)
  then YSeq (map (fun item => YStr (strip item))
                 (split_on "," (substring 1 (String.length v - 2) v)))
  else YStr v.

Definition flat_line (line : string) : option (string * yval) :=
  match split_on ":" line with
  | key :: (_ :: _) as rest => Some (strip key, flat_scalar (strip (String.concat ":" rest)))
  | _ => None
  end.

Fixpoint flat_lines (ls : list string) : option (list (string * yval)) :=
  match ls with
  | [] => Some []
  | l :: ls' =>
      match flat_line l, flat_lines ls' with
      | Some kv, Some kvs => Some (kv :: kvs)
      | _, _ => None
      end
  end.

Definition flat_yaml_load (fm : string) : option yval :=
  match filter (fun l => negb (String.eqb (strip l) "")) (split_on nl fm) with
  | [] => Some YNull
  | ls => option_map YMap (flat_lines ls)
  end.

(** A loader that raises on every input. *)
Definition failing_load (_ : string) : option yval := None.

Definition handlers0 : list Handler := default_handlers flat_yaml_load failing_load.

(** A renderer returning its input.  For a body that is one paragraph of
    plain words this is what [markdown] followed by [get_text] produces;
    the other examples that use it do not depend on the summary. *)
Definition plain_render (s : string) : string := s.

Definition header_only_doc : string := "# Just a Header" ++ nlS ++ nlS ++ "Some text.".

Definition empty_title_doc : string :=
  "---" ++ nlS ++ "title: " ++ String dq (String dq EmptyString) ++ nlS ++
  "description: " ++ String dq (String dq EmptyString) ++ nlS ++ "---" ++ nlS ++
  "# Real Title" ++ nlS ++ nlS ++ "Body text." ++ nlS.

Definition entity (i t : string) : Search.Entity :=
  {| Search.e_identifier := Some i; Search.e_title := Some t;
     Search.e_properties := Some {| Search.p_summary := Some "A page.";
                                    Search.p_category := Some "Guide";
                                    Search.p_tags := Some ["python"] |} |}.

(** An endpoint that answers every search with the same three entities. *)
Definition three_entities (_ : string) (_ : Z) : Search.Remote :=
  Search.RemoteOk [entity "local/a.md" "A"; entity "local/b.md" "B"; entity "local/c.md" "C"].

(** An endpoint that times out on the terms of the query
    ["webhook setup"] and answers every other term like
    [three_entities]. *)
Definition partial_outage (t : string) (l : Z) : Search.Remote :=
  if String.eqb t "webhook setup" || String.eqb t "webhook" || String.eqb t "setup"
  then Search.RemoteError "Read timed out"
  else three_entities t l.

(** An endpoint that is unreachable. *)
Definition unreachable (_ : string) (_ : Z) : Search.Remote :=
  Search.RemoteError "Connection refused".

End Samples.

(** ** Readings of the specification, to be compared with the code *)
Module SpecSide.

(** The category rules as the specification lists them: path-substring
    rules in a fixed priority order, then the default. *)
Definition category_rules : list (list string * string) :=
  [(["api"; "reference"], "API Reference");
   (["guide"; "tutorial"], "Guide");
   (["example"], "Example");
   (["concept"], "Concept")].

Fixpoint first_rule (path_lower : string) (rules : list (list string * string)) : string :=
  match rules with
  | [] => "Documentation"
  | (keys, cat) :: rules' =>
      if existsb (fun k => contains k path_lower) keys then cat
      else first_rule path_lower rules'
  end.

Definition category_by_rules (path : string) : string := first_rule (lower path) category_rules.

(** The normalization applied to the identifier: lower-case, spaces to
    hyphens. *)
Definition normalize (s : string) : string := replace " " "-" (lower s).

End SpecSide.

(** ** [DocumentIngester] and the [PortClient] calls it makes *)
Module Ingest.

(** [_construct_entity_payload]: Python [None] is [YNull]. *)
Record Payload : Type := {
  pl_identifier : string;
  pl_title : yval;
  pl_properties : list (string * yval)
}.

Definition opt_str (o : option string) : yval :=
  match o with Some s => YStr s | None => YNull end.

Definition is_none (v : yval) : bool := match v with YNull => true | _ => false end.

Definition construct_entity_payload (md : DocMetadata) : Payload :=
  let properties :=
    [("source", YStr (source md));
     ("filePath", YStr (file_path md));
     ("content", YStr (content md));
     ("summary", summary md);
     ("category", category md);
     ("tags", YSeq (map YStr (tags md)));
     ("lastUpdated", YStr (last_updated md));
     ("wordCount", YInt (Z.of_nat (word_count md)));
     ("readingTime", YInt (Z.of_nat (reading_time md)));
     ("repositoryUrl", opt_str (repository_url md));
     ("fileUrl", opt_str (file_url md))] in
  {| pl_identifier := entity_identifier (source md) (file_path md);
     pl_title := title md;
     pl_properties := filter (fun kv => negb (is_none (snd kv))) properties |}.

(** The outcome of one HTTP request: a status code, or a
    [requests.RequestException] raised before a response (connection
    error, timeout). *)
Inductive Http : Type :=
| Status (code : Z)
| ConnError (msg : string).

(** [response.raise_for_status()] raises [HTTPError] for 4xx and 5xx. *)
Definition is_http_error (code : Z) : bool := ((400 <=? code) && (code <? 600))%Z.

(** The endpoints the client addresses. *)
Inductive Url : Type :=
| UBlueprint (identifier : yval)        (* /v1/blueprints/{identifier} *)
| UBlueprints                           (* /v1/blueprints *)
| UEntities (blueprint_id : string).    (* /v1/blueprints/{id}/entities?upsert=true&merge=true *)

Inductive Request : Type :=
| Get (u : Url)
| Put (u : Url) (body : fmdict)
| PostBlueprint (u : Url) (body : fmdict)
| PostEntity (u : Url) (body : Payload).

Definition BLUEPRINT_ID : string := "documentation".

Section Client.

(** The remote catalog API. *)
Variable http : Request -> Http.

(** [PortClient.create_entity]: only [HTTPError] is caught; [None] is a
    connection error propagating to the caller. *)
Definition create_entity (blueprint_id : string) (entity_data : Payload) : option bool :=
  match http (PostEntity (UEntities blueprint_id) entity_data) with
  | Status code => Some (negb (is_http_error code))
  | ConnError _ => None
  end.

(** [DocumentIngester.ingest_document]: every exception gives [False]. *)
Definition ingest_document (md : DocMetadata) : bool :=
  match create_entity BLUEPRINT_ID (construct_entity_payload md) with
  | Some b => b
  | None => false
  end.

(** [PortClient.create_blueprint]: [RequestException]s give [False]. *)
Definition create_blueprint (blueprint_data : fmdict) : bool :=
  match fm_get "identifier" blueprint_data with
  | Some identifier =>
      if truthy identifier then
        match http (Get (UBlueprint identifier)) with
        | ConnError _ => false
        | Status get_code =>
            let response :=
              if Z.eqb get_code 200
              then http (Put (UBlueprint identifier) blueprint_data)
              else http (PostBlueprint UBlueprints blueprint_data) in
            match response with
            | Status code => negb (is_http_error code)
            | ConnError _ => false
            end
        end
      else false
  | None => false
  end.

(** [d[k] = v] on a dict: an existing key keeps its place. *)
Fixpoint dict_set (k : string) (v : yval) (d : fmdict) : fmdict :=
  match d with
  | [] => [(k, v)]
  | (k', v') :: d' => if String.eqb k k' then (k', v) :: d' else (k', v') :: dict_set k v d'
  end.

(** Reading and decoding the blueprint file. *)
Inductive BlueprintFile : Type :=
| FileNotFound
| JSONDecodeError
| Loaded (data : yval).

(** Python's [!=] between the loaded identifier and ["documentation"]. *)
Definition is_blueprint_id (v : option yval) : bool :=
  match v with Some (YStr s) => String.eqb s BLUEPRINT_ID | _ => false end.

(** [DocumentIngester.setup_blueprint]; a JSON value other than an object
    makes [blueprint_data.get] raise, which gives [False]. *)
Definition setup_blueprint (file : BlueprintFile) : bool :=
  match file with
  | FileNotFound | JSONDecodeError => false
  | Loaded (YMap blueprint_data) =>
      let data :=
        if is_blueprint_id (fm_get "identifier" blueprint_data) then blueprint_data
        else dict_set "identifier" (YStr BLUEPRINT_ID) blueprint_data in
      create_blueprint data
  | Loaded _ => false
  end.

End Client.

End Ingest.

(** ** [LocalFetcher.fetch_documents] *)
Module Local.

(** [Path(p).suffix] *)
Definition suffix (p : string) : string :=
  let n := PyPath.name p in
  match PyPath.rfind "." n with
  | Some i => if (0 <? i)%nat && (i <? String.length n - 1)%nat then drop i n else ""
  | None => ""
  end.

(** One path yielded by [base_path.rglob('*')], in scan order: its path
    relative to the root as [str(relative_path)], whether it is a regular
    file, its UTF-8 content ([None] when [open]/[read] raises) and its
    modification time as [isoformat()] ([None] when [getmtime] raises). *)
Record FsEntry : Type := {
  fs_rel_path : string;
  fs_is_file : bool;
  fs_read : option string;
  fs_mtime_iso : option string
}.

Definition default_extensions : list string := [".md"; ".markdown"].

Section Fetch.

Variable handlers : list Handler.
Variable render_text : string -> string.

(** The body of the loop for one path: the documents it yields. *)
Definition fetch_one (file_extensions : list string) (e : FsEntry) : list DocMetadata :=
  if existsb (String.eqb (lower (suffix (fs_rel_path e)))) file_extensions && fs_is_file e
  then match fs_read e, fs_mtime_iso e with
       | Some content0, Some mtime =>
           match parse handlers render_text content0 "local" (fs_rel_path e) mtime None None with
           | Some md => [md]
           | None => []
           end
       | _, _ => []
       end
  else [].

(** The scanned paths for which the loop yields a document: regular
    files whose lowercased suffix is one of [file_extensions], whose
    content and modification time can be read, and that [parse]
    accepts. *)
Definition accepted (file_extensions : list string) (e : FsEntry) : bool :=
  existsb (String.eqb (lower (suffix (fs_rel_path e)))) file_extensions && fs_is_file e &&
  match fs_read e, fs_mtime_iso e with
  | Some content0, Some mtime =>
      match parse handlers render_text content0 "local" (fs_rel_path e) mtime None None with
      | Some _ => true
      | None => false
      end
  | _, _ => false
  end.

(** [fetch_documents]; [is_dir] is [base_path.is_dir()]. *)
Definition fetch_documents (is_dir : bool) (entries : list FsEntry)
  (file_extensions : list string) : list DocMetadata :=
  if is_dir then flat_map (fetch_one file_extensions) entries else [].

End Fetch.

End Local.

(** ** Sample catalog API and files for the ingestion side *)
Module IngestSamples.

(** An API where no blueprint exists yet and every write is accepted. *)
Definition fresh_api (req : Ingest.Request) : Ingest.Http :=
  match req with
  | Ingest.Get _ => Ingest.Status 404
  | _ => Ingest.Status 201
  end.

(** A blueprint file whose identifier is not ["documentation"]. *)
Definition docs_blueprint_file : Ingest.BlueprintFile :=
  Ingest.Loaded (YMap [("identifier", YStr "docs"); ("title", YStr "Documentation")]).

(** A scan result: a Markdown file with an upper-case suffix, a text file,
    a directory named like a Markdown file, and an unreadable file. *)
Definition scan : list Local.FsEntry :=
  [{| Local.fs_rel_path := "guides/Intro.MD"; Local.fs_is_file := true;
      Local.fs_read := Some ("# Intro" ++ Samples.nlS ++ "Use the API.");
      Local.fs_mtime_iso := Some "2024-01-01T00:00:00+00:00" |};
   {| Local.fs_rel_path := "notes.txt"; Local.fs_is_file := true;
      Local.fs_read := Some "plain"; Local.fs_mtime_iso := Some "2024-01-01T00:00:00+00:00" |};
   {| Local.fs_rel_path := "archive.md"; Local.fs_is_file := false;
      Local.fs_read := None; Local.fs_mtime_iso := None |};
   {| Local.fs_rel_path := "broken.md"; Local.fs_is_file := true;
      Local.fs_read := None; Local.fs_mtime_iso := Some "2024-01-01T00:00:00+00:00" |}].

End IngestSamples.

(** * Properties *)

(** ** Shared lemmas *)

Lemma parse_fields :
  forall hs render content0 src path lu ru fu fm body md,
    extract_frontmatter hs content0 = (fm, body) ->
    parse hs render content0 src path lu ru fu = Some md ->
    title md = fm_or "title" fm (YStr (extract_title body path)) /\
    summary md = fm_or "description" fm (YStr (generate_summary render body 250)) /\
    category md = fm_or "category" fm (YStr (categorize_document path body)) /\
    content md = body /\
    word_count md = List.length (split body).
Proof.
  intros hs render content0 src path lu ru fu fm body md Hx Hp.
  unfold parse in Hp. rewrite Hx in Hp.
  destruct (fm_tags fm); [|discriminate].
  injection Hp as <-. simpl. repeat split.
Qed.

Lemma parse_header_only_doc_eq :
  forall yaml_load json_load render,
    parse (default_handlers yaml_load json_load) render Samples.header_only_doc
      "github" "org/repo/README.md" "2024-01-01T00:00:00+00:00" None None
    = Some {| title := YStr "Just a Header";
              content := Samples.header_only_doc;
              source := "github"; file_path := "org/repo/README.md";
              last_updated := "2024-01-01T00:00:00+00:00";
              summary := YStr (summarize_text (render Samples.header_only_doc) 250);
              category := YStr "Documentation";
              tags := ["repo"];
              repository_url := None; file_url := None;
              word_count := 6; reading_time := 1 |}.
Proof. intros. reflexivity. Qed.

(** ** C1 *)

(** C1 (counterexample): for the content ["# Just a Header\n\nSome text."]
    with source [github] and path [org/repo/README.md], no choice of the
    YAML and JSON loaders or of the Markdown renderer makes [parse] return
    a word count of 4. *)
Lemma C1_word_count_not_4 :
  ~ (exists yaml_load json_load render md,
        parse (default_handlers yaml_load json_load) render Samples.header_only_doc
          "github" "org/repo/README.md" "2024-01-01T00:00:00+00:00" None None = Some md /\
        word_count md = 4).
Proof.
  intros [yl [jl [rd [md [Hp Hw]]]]].
  rewrite parse_header_only_doc_eq in Hp. injection Hp as <-.
  simpl in Hw. discriminate.
Qed.

(** C1 (amended): for that input [parse] returns the title
    ["Just a Header"], tags containing ["repo"], and a word count of 6:
    the whitespace split of the body counts the ["#"] marker, and
    ["Just"], ["a"], ["Header"], ["Some"], ["text."]. *)
Theorem C1_parse_header_only_doc :
  forall yaml_load json_load render,
  exists md,
    parse (default_handlers yaml_load json_load) render Samples.header_only_doc
      "github" "org/repo/README.md" "2024-01-01T00:00:00+00:00" None None = Some md /\
    title md = YStr "Just a Header" /\ In "repo" (tags md) /\ word_count md = 6.
Proof.
  intros. eexists. split; [apply parse_header_only_doc_eq|].
  simpl. repeat split. left. reflexivity.
Qed.

(** ** C7 *)

(** C7: when the front matter has no [category], the category of the
    parsed document is decided by the path-substring rules in the
    specification's order: [api]/[reference], [guide]/[tutorial],
    [example], [concept], else ["Documentation"]. *)
Theorem C7_category_by_path_rules :
  forall hs render content0 src path lu ru fu fm body md,
    extract_frontmatter hs content0 = (fm, body) ->
    fm_get "category" fm = None ->
    parse hs render content0 src path lu ru fu = Some md ->
    category md = YStr (SpecSide.category_by_rules path).
Proof.
  intros hs render content0 src path lu ru fu fm body md Hx Hc Hp.
  destruct (parse_fields _ _ _ _ _ _ _ _ _ _ _ Hx Hp) as (_ & _ & Hcat & _).
  rewrite Hcat. unfold fm_or. rewrite Hc. f_equal.
  unfold categorize_document, SpecSide.category_by_rules, SpecSide.first_rule,
    SpecSide.category_rules. simpl.
  rewrite !orb_false_r.
  destruct (contains "api" (lower path) || contains "reference" (lower path)); [reflexivity|].
  destruct (contains "guide" (lower path) || contains "tutorial" (lower path)); [reflexivity|].
  destruct (contains "example" (lower path)); [reflexivity|].
  destruct (contains "concept" (lower path)); reflexivity.
Qed.

Lemma C7_category_by_path_rules_witness :
  exists md,
    parse Samples.handlers0 Samples.plain_render "Calling the REST endpoints." "local"
      "docs/API/overview.md" "2024-01-01T00:00:00+00:00" None None = Some md /\
    category md = YStr (SpecSide.category_by_rules "docs/API/overview.md") /\
    category md = YStr "API Reference".
Proof.
  eexists. split; [reflexivity|]. split; [|reflexivity].
  apply (C7_category_by_path_rules Samples.handlers0 Samples.plain_render
           "Calling the REST endpoints." "local" "docs/API/overview.md"
           "2024-01-01T00:00:00+00:00" None None [] "Calling the REST endpoints.");
    reflexivity.
Defined.

(** ** Deduplication in [multi_strategy_search] *)
Section Dedup.
Import Search.
Local Open Scope list_scope.

Lemma dedup_go_fresh :
  forall l seen e, In e (dedup_go seen l) -> ~ In (ident e) seen.
Proof.
  induction l as [|r l IH]; intros seen e Hin; simpl in Hin; [contradiction|].
  destruct (existsb (String.eqb (ident r)) seen) eqn:Hs.
  - exact (IH _ _ Hin).
  - destruct Hin as [<- | Hin].
    + intros Hm. assert (existsb (String.eqb (ident r)) seen = true) as Ht.
      { apply existsb_exists. exists (ident r). split; [exact Hm|apply String.eqb_refl]. }
      congruence.
    + intros Hm. apply (IH _ _ Hin). right. exact Hm.
Qed.

Lemma dedup_go_nodup :
  forall l seen, NoDup (map ident (dedup_go seen l)).
Proof.
  induction l as [|r l IH]; intros seen; simpl; [constructor|].
  destruct (existsb (String.eqb (ident r)) seen); [apply IH|].
  simpl. constructor; [|apply IH].
  intros Hin. apply in_map_iff in Hin as [e [He Hin]].
  apply (dedup_go_fresh _ _ _ Hin). rewrite He. left. reflexivity.
Qed.

(** Every kept entry is the first occurrence of its identifier. *)
Lemma dedup_go_first :
  forall l seen e, In e (dedup_go seen l) ->
    exists l1 l2, l = l1 ++ e :: l2 /\ ~ In (ident e) (map ident l1).
Proof.
  induction l as [|r l IH]; intros seen e Hin; simpl in Hin; [contradiction|].
  destruct (existsb (String.eqb (ident r)) seen) eqn:Hs.
  - destruct (IH _ _ Hin) as [l1 [l2 [Hl Hn]]].
    exists (r :: l1), l2. split; [simpl; congruence|].
    simpl. intros [Heq | Hm]; [|exact (Hn Hm)].
    apply (dedup_go_fresh _ _ _ Hin). rewrite <- Heq.
    apply existsb_exists in Hs as [x [Hx Heqx]].
    apply String.eqb_eq in Heqx. rewrite Heqx. exact Hx.
  - destruct Hin as [<- | Hin].
    + exists [], l. split; [reflexivity|]. simpl. tauto.
    + destruct (IH _ _ Hin) as [l1 [l2 [Hl Hn]]].
      exists (r :: l1), l2. split; [simpl; congruence|].
      simpl. intros [Heq | Hm]; [|exact (Hn Hm)].
      apply (dedup_go_fresh _ _ _ Hin). left. exact Heq.
Qed.

(** No identifier is lost: every entry's identifier was seen before or
    is represented in the output. *)
Lemma dedup_go_complete :
  forall l seen e, In e l ->
    In (ident e) seen \/ exists e', In e' (dedup_go seen l) /\ ident e' = ident e.
Proof.
  induction l as [|r l IH]; intros seen e Hin; [contradiction|].
  simpl. destruct (existsb (String.eqb (ident r)) seen) eqn:Hs.
  - destruct Hin as [<- | Hin]; [|exact (IH _ _ Hin)].
    left. apply existsb_exists in Hs as [x [Hx Heqx]].
    apply String.eqb_eq in Heqx. rewrite Heqx. exact Hx.
  - destruct Hin as [<- | Hin].
    + right. exists r. split; [left|]; reflexivity.
    + destruct (IH (ident r :: seen) e Hin) as [[Heq | Hm] | [e' [He' Hid]]].
      * right. exists r. split; [left; reflexivity | exact Heq].
      * left. exact Hm.
      * right. exists e'. split; [right; exact He' | exact Hid].
Qed.

End Dedup.

Lemma in_firstn_in {A} : forall (n : nat) (l : list A) x, In x (firstn n l) -> In x l.
Proof.
  intros n l x H. rewrite <- (firstn_skipn n l). apply in_or_app. left. exact H.
Qed.

Lemma nodup_firstn {A} : forall (n : nat) (l : list A), NoDup l -> NoDup (firstn n l).
Proof.
  induction n as [|n IH]; intros l Hl; [constructor|].
  destruct l as [|a l]; [constructor|]. simpl.
  inversion Hl as [|? ? Hna Hl']; subst. constructor; [|apply IH; exact Hl'].
  intros Hin. apply Hna. exact (in_firstn_in n l a Hin).
Qed.

Lemma py_take_nonneg {A} : forall (l : list A) k, (0 <= k)%Z -> Search.py_take l k = firstn (Z.to_nat k) l.
Proof. intros l k Hk. unfold Search.py_take. apply Z.leb_le in Hk. rewrite Hk. reflexivity. Qed.

(** ** C4 *)

(** C4 (counterexample): for [max_results = -1], Python's slice
    [unique_results[:-1]] drops only the last entry, so a search whose
    endpoint answers with three entities returns one entry, more than
    [max_results]. *)
Lemma C4_negative_max_results :
  Search.multi_strategy_search Samples.three_entities "docs" (-1)
    = [Samples.entity "local/a.md" "A"] /\
  ~ (Z.of_nat (List.length (Search.multi_strategy_search Samples.three_entities "docs" (-1)))
       <= -1)%Z.
Proof. split; [reflexivity|]. simpl. lia. Qed.

(** C4 (amended): for every non-negative [max_results] and every
    endpoint behaviour, the result has at most [max_results] entries,
    no two with the same identifier, and is the first [max_results]
    entries of the deduplicated list of gathered entries, in which the
    direct search's entries come first and every kept entry is the first
    occurrence of its identifier. *)
Theorem C4_multi_strategy_search_bounded_unique :
  forall remote query max_results,
    (0 <= max_results)%Z ->
    let results := Search.multi_strategy_search remote query max_results in
    let all_results := Search.gather remote query max_results in
    (Z.of_nat (List.length results) <= max_results)%Z /\
    NoDup (map Search.ident results) /\
    results = firstn (Z.to_nat max_results) (Search.dedup all_results) /\
    (exists per_keyword,
        all_results = (Search.ok_entities (Search.search_entities remote query 25)
                         (max_results / 2) ++ per_keyword)%list) /\
    (forall e, In e results ->
       exists l1 l2, all_results = (l1 ++ e :: l2)%list /\
                     ~ In (Search.ident e) (map Search.ident l1)).
Proof.
  intros remote query m Hm results all_results.
  assert (Hr : results = firstn (Z.to_nat m) (Search.dedup all_results))
    by (apply py_take_nonneg; exact Hm).
  split; [|split; [|split; [exact Hr|split]]].
  - rewrite Hr. pose proof (firstn_le_length (Z.to_nat m) (Search.dedup all_results)). lia.
  - rewrite Hr, <- firstn_map. apply nodup_firstn. apply dedup_go_nodup.
  - eexists. reflexivity.
  - intros e He. rewrite Hr in He. apply in_firstn_in in He.
    exact (dedup_go_first _ _ _ He).
Qed.

Lemma C4_multi_strategy_search_bounded_unique_witness :
  (0 <= 10)%Z /\
  (Z.of_nat (List.length (Search.multi_strategy_search Samples.three_entities "docs setup" 10))
     <= 10)%Z.
Proof.
  split; [lia|].
  exact (proj1 (C4_multi_strategy_search_bounded_unique Samples.three_entities "docs setup" 10
                  ltac:(lia))).
Defined.

(** ** C9 *)

(** The remote calls [multi_strategy_search] makes for a query: the
    query itself, and for a query of several words each word longer
    than 3 characters, always with limit 25. *)
Lemma gather_searched_failed :
  forall remote query m,
    (forall t, t = query \/
               ((1 < List.length (split query))%nat /\ In t (split query) /\
                (3 < String.length t)%nat) ->
               exists e, remote t 25%Z = Search.RemoteError e) ->
    Search.gather remote query m = [].
Proof.
  intros remote query m H.
  assert (Hf : forall t k, (exists e, remote t 25%Z = Search.RemoteError e) ->
                 Search.ok_entities (Search.search_entities remote t 25) k = []).
  { intros t k [e He]. unfold Search.search_entities. rewrite He. reflexivity. }
  unfold Search.gather. rewrite Hf by (apply H; left; reflexivity). simpl.
  destruct (1 <? List.length (split query))%nat eqn:E; [|reflexivity].
  apply Nat.ltb_lt in E.
  assert (Hk : forall kw, In kw (split query) -> (3 < String.length kw)%nat ->
                 exists e, remote kw 25%Z = Search.RemoteError e).
  { intros kw Hin Hl. apply H. right. auto. }
  clear H E. induction (split query) as [|kw kws IH]; [reflexivity|].
  simpl. destruct (3 <? String.length kw)%nat eqn:E3.
  - apply Nat.ltb_lt in E3. rewrite Hf by (apply Hk; [left; reflexivity|exact E3]).
    apply IH. intros kw' Hin. apply Hk. right. exact Hin.
  - apply IH. intros kw' Hin. apply Hk. right. exact Hin.
Qed.

(** C9: a remote search call that errors gives the structured failure
    [{ok: false, error}] instead of raising; when every remote call a
    query makes fails (the query itself, and for a query of several
    words each word longer than 3 characters), [multi_strategy_search]
    returns the empty list for every [max_results] and
    [search_and_respond] returns the no-results response.  The endpoint
    may answer other terms normally. *)
Theorem C9_search_degrades_on_remote_failure :
  forall remote query,
    (forall t l e, remote t l = Search.RemoteError e ->
                   Search.search_entities remote t l = Search.Failed e) /\
    ((forall t, t = query \/
                ((1 < List.length (split query))%nat /\ In t (split query) /\
                 (3 < String.length t)%nat) ->
                exists e, remote t 25%Z = Search.RemoteError e) ->
     (forall m, Search.multi_strategy_search remote query m = []) /\
     Search.search_and_respond remote query = Search.no_results_response query).
Proof.
  intros remote query. split.
  - intros t l e He. unfold Search.search_entities. rewrite He. reflexivity.
  - intros H.
    assert (Hm : forall m, Search.multi_strategy_search remote query m = []).
    { intros m. unfold Search.multi_strategy_search.
      rewrite (gather_searched_failed _ _ _ H). unfold Search.py_take.
      destruct (0 <=? m)%Z; rewrite firstn_nil; reflexivity. }
    split; [exact Hm|].
    unfold Search.search_and_respond. rewrite Hm. reflexivity.
Qed.

Lemma C9_search_degrades_on_remote_failure_witness :
  Search.multi_strategy_search Samples.partial_outage "python" 10 <> [] /\
  Search.search_and_respond Samples.partial_outage "webhook setup"
    = Search.no_results_response "webhook setup".
Proof.
  split; [discriminate|].
  apply (proj2 (C9_search_degrades_on_remote_failure Samples.partial_outage "webhook setup")).
  intros t [->|[_ [Hin _]]]; [eexists; reflexivity|].
  vm_compute in Hin. destruct Hin as [<-|[<-|[]]]; eexists; reflexivity.
Defined.

(** ** C2 *)

(** C2 (counterexample): [DocumentationBot.search_and_respond] appends no
    "related categories / related tags" footer: for three results with
    category ["Guide"] and tag ["python"], the response does not contain
    ["elated"]. *)
Lemma C2_no_related_footer :
  Search.multi_strategy_search Samples.three_entities "webhook setup" 10 <> [] /\
  contains "elated" (Search.search_and_respond Samples.three_entities "webhook setup") = false.
Proof. split; [discriminate | reflexivity]. Qed.

(** C2 (amended): for an empty result set [search_and_respond] returns the
    fixed no-results suggestions for the query; otherwise a header, the
    first at most 5 results as a numbered list (title, category, summary
    cut at 250 characters) and, when more than 5 results exist, an
    overflow count, and nothing else. *)
Theorem C2_search_and_respond_shape :
  forall remote query,
    Search.search_and_respond remote query =
    match Search.multi_strategy_search remote query 10 with
    | [] => Search.no_results_response query
    | results =>
        Search.response_header query ++ Search.render_from 1 (firstn 5 results) ++
        (if (5 <? List.length results)%nat
         then "...and " ++ of_nat (List.length results - 5) ++ " more results were found."
              ++ Samples.nlS
         else "")
    end.
Proof.
  intros remote query. unfold Search.search_and_respond.
  destruct (Search.multi_strategy_search remote query 10); reflexivity.
Qed.

(** ** C3 *)

Lemma lower_app : forall a b, lower (a ++ b) = lower a ++ lower b.
Proof. induction a as [|c a IH]; intros b; simpl; [reflexivity|]. rewrite IH. reflexivity. Qed.

Lemma replace_app : forall x y a b, replace x y (a ++ b) = replace x y a ++ replace x y b.
Proof. induction a as [|c a IH]; intros b; simpl; [reflexivity|]. rewrite IH. reflexivity. Qed.

Lemma entity_identifier_normalize :
  forall s p, entity_identifier s p = SpecSide.normalize s ++ "/" ++ SpecSide.normalize p.
Proof.
  intros s p. unfold entity_identifier, SpecSide.normalize.
  rewrite lower_app, replace_app. reflexivity.
Qed.

Lemma slash_split_unique :
  forall s s' p p',
    contains "/" s = false -> contains "/" s' = false ->
    s ++ "/" ++ p = s' ++ "/" ++ p' -> s = s' /\ p = p'.
Proof.
  induction s as [|c s IH]; intros s' p p' Hs Hs' Heq; destruct s' as [|c' s'].
  - simpl in Heq. injection Heq as Hp. split; [reflexivity|exact Hp].
  - simpl in Heq. injection Heq as Hc _. subst c'. discriminate Hs'.
  - simpl in Heq. injection Heq as Hc _. subst c. discriminate Hs.
  - simpl in Heq. injection Heq as Hc Heq. subst c'.
    simpl in Hs, Hs'. apply orb_false_iff in Hs as [_ Hs].
    apply orb_false_iff in Hs' as [_ Hs'].
    destruct (IH s' p p' Hs Hs' Heq) as [-> ->]. split; reflexivity.
Qed.

(** C3 (counterexample): two distinct pairs get the same identifier:
    [("github", "Docs/A B.md")] and [("github", "docs/a-b.md")] both give
    ["github/docs/a-b.md"]. *)
Lemma C3_identifier_collision :
  entity_identifier "github" "Docs/A B.md" = entity_identifier "github" "docs/a-b.md" /\
  "Docs/A B.md" <> "docs/a-b.md".
Proof. split; [reflexivity | discriminate]. Qed.

(** C3 (amended): the identifier is [normalize source ++ "/" ++
    normalize file_path] (lower-case, spaces to hyphens), so two pairs
    get the same identifier exactly when these strings coincide; the same
    pair always gets the same identifier.  On pairs whose source has no
    ["/"] and whose parts are already normalized, distinct pairs get
    distinct identifiers. *)
Theorem C3_identifier_normalized_injective :
  forall s p s' p',
    (entity_identifier s p = entity_identifier s' p' <->
     SpecSide.normalize s ++ "/" ++ SpecSide.normalize p =
     SpecSide.normalize s' ++ "/" ++ SpecSide.normalize p') /\
    (contains "/" s = false -> contains "/" s' = false ->
     SpecSide.normalize s = s -> SpecSide.normalize p = p ->
     SpecSide.normalize s' = s' -> SpecSide.normalize p' = p' ->
     (entity_identifier s p = entity_identifier s' p' <-> s = s' /\ p = p')).
Proof.
  intros s p s' p'. rewrite !entity_identifier_normalize.
  split; [reflexivity|].
  intros Hs Hs' Ns Np Ns' Np'. rewrite Ns, Np, Ns', Np'. split.
  - apply slash_split_unique; assumption.
  - intros [-> ->]. reflexivity.
Qed.

Lemma C3_identifier_normalized_injective_witness :
  contains "/" "github" = false /\ contains "/" "local" = false /\
  (entity_identifier "github" "org/repo/readme.md" = entity_identifier "local" "org/repo/readme.md"
   <-> "github" = "local" /\ "org/repo/readme.md" = "org/repo/readme.md").
Proof.
  split; [reflexivity|]. split; [reflexivity|].
  apply (proj2 (C3_identifier_normalized_injective "github" "org/repo/readme.md"
                  "local" "org/repo/readme.md")); reflexivity.
Defined.

(** ** C6 *)

Lemma string_length_app :
  forall a b, String.length (a ++ b) = (String.length a + String.length b)%nat.
Proof. induction a as [|c a IH]; intros b; simpl; [reflexivity|]. rewrite IH. reflexivity. Qed.

Lemma take_prefix :
  forall n s, prefixb (take n s) s = true /\ (String.length (take n s) <= n)%nat.
Proof.
  unfold take. induction n as [|n IH]; intros s; destruct s as [|c s]; simpl;
    try (split; [reflexivity | lia]).
  destruct (IH s) as [Hp Hl]. rewrite Ascii.eqb_refl. split; [exact Hp | lia].
Qed.

Lemma before_last_space_prefix :
  forall s p, before_last_space s = Some p ->
    prefixb p s = true /\ (String.length p <= String.length s)%nat.
Proof.
  induction s as [|c s IH]; intros p H; simpl in H; [discriminate|].
  destruct (before_last_space s) as [q|] eqn:Hq.
  - injection H as <-. destruct (IH q eq_refl) as [Hp Hl]. simpl.
    rewrite Ascii.eqb_refl. split; [exact Hp | lia].
  - destruct (Ascii.eqb c " "); [|discriminate]. injection H as <-.
    simpl. split; [reflexivity | lia].
Qed.

Lemma rsplit_space_head_prefix :
  forall s, prefixb (rsplit_space_head s) s = true /\
            (String.length (rsplit_space_head s) <= String.length s)%nat.
Proof.
  intros s. unfold rsplit_space_head.
  destruct (before_last_space s) as [p|] eqn:H; [exact (before_last_space_prefix _ _ H)|].
  split; [|lia]. induction s as [|c s IH]; simpl; [reflexivity|].
  rewrite Ascii.eqb_refl. simpl in H.
  destruct (before_last_space s); [discriminate|].
  apply IH. reflexivity.
Qed.

Lemma prefixb_trans :
  forall a b c, prefixb a b = true -> prefixb b c = true -> prefixb a c = true.
Proof.
  induction a as [|x a IH]; intros b c Hab Hbc; [reflexivity|].
  destruct b as [|y b]; [discriminate|]. destruct c as [|z c]; [discriminate|].
  simpl in *. apply andb_true_iff in Hab as [Hxy Hab].
  apply andb_true_iff in Hbc as [Hyz Hbc].
  apply Ascii.eqb_eq in Hxy, Hyz. subst. rewrite Ascii.eqb_refl.
  exact (IH _ _ Hab Hbc).
Qed.

(** C6 (counterexample): for the rendered text of a paragraph of 26
    nine-letter words (259 characters), the 250-character cut ends in a
    space; the text before that space (249 characters) plus ["..."] gives
    a summary of 252 characters, more than the maximum of 250. *)
Lemma C6_summary_exceeds_max_length :
  String.length (generate_summary Samples.plain_render
                   (String.concat " " (repeat "abcdefghi" 26)) 250) = 252%nat.
Proof. reflexivity. Qed.

(** C6 (amended): the generated summary joins the first 50 words of the
    rendered text with single spaces; when that is longer than
    [max_length], it keeps the first [max_length] characters, drops the
    part from the last space of that cut on (if it has a space), and
    appends ["..."].  The kept part is a prefix of the joined words of at
    most [max_length] characters, so the summary has at most
    [max_length + 3] characters. *)
Theorem C6_summary_truncation :
  forall render content0 max_length,
    let joined := String.concat " " (firstn 50 (split (strip (render content0)))) in
    let kept := rsplit_space_head (take max_length joined) in
    let s := generate_summary render content0 max_length in
    s = (if (max_length <? String.length joined)%nat then kept ++ "..." else joined) /\
    prefixb kept joined = true /\
    (String.length kept <= max_length)%nat /\
    (String.length s <= max_length + 3)%nat.
Proof.
  intros render content0 m joined kept s.
  destruct (take_prefix m joined) as [Htp Htl].
  destruct (rsplit_space_head_prefix (take m joined)) as [Hrp Hrl].
  assert (Hk : (String.length kept <= m)%nat) by (unfold kept; lia).
  assert (Hs : s = (if (m <? String.length joined)%nat then kept ++ "..." else joined))
    by reflexivity.
  split; [exact Hs|]. split; [exact (prefixb_trans _ _ _ Hrp Htp)|].
  split; [exact Hk|].
  rewrite Hs. destruct (m <? String.length joined)%nat eqn:Hlt.
  - rewrite string_length_app. simpl. lia.
  - apply Nat.ltb_ge in Hlt. lia.
Qed.

(** ** C5 *)

(** C5 (counterexample): a front matter whose [title] is the empty string
    does not give the title: the document's level-1 heading does. *)
Lemma C5_empty_front_matter_title_ignored :
  fm_get "title" (fst (extract_frontmatter Samples.handlers0 Samples.empty_title_doc))
    = Some (YStr "") /\
  option_map title (parse Samples.handlers0 Samples.plain_render Samples.empty_title_doc
                      "local" "docs/x.md" "2024-01-01T00:00:00+00:00" None None)
    = Some (YStr "Real Title").
Proof. split; reflexivity. Qed.

(** C5 (amended): the title is the front-matter [title] when that value
    is truthy; otherwise (absent, empty or null) it is the first match of
    [^#\s+(.+)$] in the body with surrounding whitespace stripped, and
    without a match the file-name stem with ['-'] and ['_'] replaced by
    spaces and title-cased. *)
Theorem C5_title_resolution :
  forall hs render content0 src path lu ru fu fm body md,
    extract_frontmatter hs content0 = (fm, body) ->
    parse hs render content0 src path lu ru fu = Some md ->
    title md =
      (let derived :=
         YStr (match Heading.search body with
               | Some g => strip g
               | None => PyStr.title (replace "_" " " (replace "-" " " (PyPath.stem path)))
               end) in
       match fm_get "title" fm with
       | Some v => if truthy v then v else derived
       | None => derived
       end).
Proof.
  intros hs render content0 src path lu ru fu fm body md Hx Hp.
  destruct (parse_fields _ _ _ _ _ _ _ _ _ _ _ Hx Hp) as (Ht & _).
  rewrite Ht. reflexivity.
Qed.

Lemma C5_title_resolution_witness :
  exists md,
    parse Samples.handlers0 Samples.plain_render Samples.empty_title_doc
      "local" "docs/x.md" "2024-01-01T00:00:00+00:00" None None = Some md /\
    title md = YStr "Real Title".
Proof.
  eexists. split; [reflexivity|].
  etransitivity;
    [exact (C5_title_resolution Samples.handlers0 Samples.plain_render Samples.empty_title_doc
              "local" "docs/x.md" "2024-01-01T00:00:00+00:00" None None
              [("title", YStr ""); ("description", YStr "")]
              ("# Real Title" ++ Samples.nlS ++ Samples.nlS ++ "Body text.")
              _ eq_refl eq_refl)|].
  reflexivity.
Defined.

(** ** C10 *)

(** C10: a front-matter [title], [description] or [category] that is
    present but falsy (empty string, null, ...) is ignored, and the value
    derived from the body and path is used. *)
Theorem C10_falsy_front_matter_fields_ignored :
  forall hs render content0 src path lu ru fu fm body md,
    extract_frontmatter hs content0 = (fm, body) ->
    parse hs render content0 src path lu ru fu = Some md ->
    (forall v, fm_get "title" fm = Some v -> truthy v = false ->
               title md = YStr (extract_title body path)) /\
    (forall v, fm_get "description" fm = Some v -> truthy v = false ->
               summary md = YStr (generate_summary render body 250)) /\
    (forall v, fm_get "category" fm = Some v -> truthy v = false ->
               category md = YStr (categorize_document path body)).
Proof.
  intros hs render content0 src path lu ru fu fm body md Hx Hp.
  destruct (parse_fields _ _ _ _ _ _ _ _ _ _ _ Hx Hp) as (Ht & Hs & Hc & _).
  unfold fm_or in Ht, Hs, Hc.
  split; [|split]; intros v Hv Hf.
  - rewrite Ht, Hv, Hf. reflexivity.
  - rewrite Hs, Hv, Hf. reflexivity.
  - rewrite Hc, Hv, Hf. reflexivity.
Qed.

Lemma C10_falsy_front_matter_fields_ignored_witness :
  exists md,
    parse Samples.handlers0 Samples.plain_render Samples.empty_title_doc
      "local" "docs/x.md" "2024-01-01T00:00:00+00:00" None None = Some md /\
    title md = YStr (extract_title ("# Real Title" ++ Samples.nlS ++ Samples.nlS ++ "Body text.")
                       "docs/x.md").
Proof.
  eexists. split; [reflexivity|].
  apply (proj1 (C10_falsy_front_matter_fields_ignored Samples.handlers0 Samples.plain_render
                  Samples.empty_title_doc "local" "docs/x.md" "2024-01-01T00:00:00+00:00"
                  None None [("title", YStr ""); ("description", YStr "")]
                  ("# Real Title" ++ Samples.nlS ++ Samples.nlS ++ "Body text.")
                  _ eq_refl eq_refl) (YStr "")); reflexivity.
Defined.

(** ** C8 *)

(** C8 (counterexample): without a front-matter block the body is not the
    unmodified content: the loader strips surrounding whitespace. *)
Lemma C8_absent_front_matter_strips_content :
  extract_frontmatter Samples.handlers0 ("Hello world" ++ Samples.nlS) = ([], "Hello world") /\
  "Hello world" <> "Hello world" ++ Samples.nlS.
Proof. split; [reflexivity | discriminate]. Qed.

(** C8 (amended): [extract_frontmatter] is total (it never raises).  When
    loading the detected block raises (malformed YAML or JSON, or a
    [content] or [handler] key), it returns the empty mapping and the
    unmodified content; when no block is detected, or the opening
    boundary has no closing one, it returns the empty mapping and the
    content with surrounding whitespace stripped. *)
Theorem C8_extract_frontmatter_degrades :
  forall hs content0,
    (fm_loads hs content0 = None -> extract_frontmatter hs content0 = ([], content0)) /\
    (select_handler hs content0 = None ->
     extract_frontmatter hs content0 = ([], strip content0)) /\
    (forall h, select_handler hs content0 = Some h ->
               split2 (h_boundary h) (strip content0) = None ->
               extract_frontmatter hs content0 = ([], strip content0)).
Proof.
  intros hs content0. unfold extract_frontmatter.
  split; [|split].
  - intros H. rewrite H. reflexivity.
  - intros H. unfold fm_loads. rewrite H. reflexivity.
  - intros h H Hs. unfold fm_loads. rewrite H, Hs. reflexivity.
Qed.

Lemma C8_extract_frontmatter_degrades_witness :
  let malformed := "---" ++ Samples.nlS ++ "title: x" ++ Samples.nlS ++ "broken line"
                   ++ Samples.nlS ++ "---" ++ Samples.nlS ++ "body" in
  fm_loads Samples.handlers0 malformed = None /\
  extract_frontmatter Samples.handlers0 malformed = ([], malformed) /\
  select_handler Samples.handlers0 ("Hello world" ++ Samples.nlS) = None /\
  extract_frontmatter Samples.handlers0 ("Hello world" ++ Samples.nlS)
    = ([], strip ("Hello world" ++ Samples.nlS)).
Proof.
  intros malformed.
  split; [reflexivity|]. split.
  - apply (proj1 (C8_extract_frontmatter_degrades Samples.handlers0 malformed)). reflexivity.
  - split; [reflexivity|].
    apply (proj1 (proj2 (C8_extract_frontmatter_degrades Samples.handlers0
                           ("Hello world" ++ Samples.nlS)))). reflexivity.
Defined.

(** ** Tags, categories and reading time *)

Lemma ascii_compare_lt_trans :
  forall a b c, Ascii.compare a b = Lt -> Ascii.compare b c = Lt -> Ascii.compare a c = Lt.
Proof.
  unfold Ascii.compare. intros a b c H1 H2.
  apply N.compare_lt_iff in H1. apply N.compare_lt_iff in H2.
  apply N.compare_lt_iff. exact (N.lt_trans _ _ _ H1 H2).
Qed.

Lemma str_lt_trans : forall a b c, str_lt a b -> str_lt b c -> str_lt a c.
Proof.
  unfold str_lt. induction a as [|x a IH]; intros [|y b] [|z c] H1 H2;
    simpl in *; try discriminate; try reflexivity.
  destruct (Ascii.compare x y) eqn:Exy; try discriminate;
  destruct (Ascii.compare y z) eqn:Eyz; try discriminate.
  - apply Ascii.compare_eq_iff in Exy. apply Ascii.compare_eq_iff in Eyz. subst.
    unfold Ascii.compare. rewrite N.compare_refl. exact (IH _ _ H1 H2).
  - apply Ascii.compare_eq_iff in Exy. subst. rewrite Eyz. reflexivity.
  - apply Ascii.compare_eq_iff in Eyz. subst. rewrite Exy. reflexivity.
  - rewrite (ascii_compare_lt_trans _ _ _ Exy Eyz). reflexivity.
Qed.

Lemma str_lt_irrefl : forall a, ~ str_lt a a.
Proof.
  unfold str_lt. intros a H.
  assert (Hc := String.compare_antisym a a). rewrite H in Hc. discriminate.
Qed.

Lemma insert_uniq_in :
  forall x y l, In y (insert_uniq x l) <-> x = y \/ In y l.
Proof.
  intros x y l. induction l as [|z l IH]; simpl.
  - tauto.
  - destruct (String.compare x z) eqn:E; simpl.
    + apply String.compare_eq_iff in E. subst. tauto.
    + tauto.
    + rewrite IH. tauto.
Qed.

Lemma insert_uniq_sorted :
  forall x l, StronglySorted str_lt l -> StronglySorted str_lt (insert_uniq x l).
Proof.
  intros x l. induction l as [|z l IH]; intros Hs; simpl.
  - constructor; constructor.
  - apply StronglySorted_inv in Hs as [Hs Hf].
    destruct (String.compare x z) eqn:E.
    + constructor; assumption.
    + constructor; [constructor; assumption|].
      constructor; [exact E|].
      rewrite Forall_forall in Hf |- *. intros w Hw.
      exact (str_lt_trans _ _ _ E (Hf w Hw)).
    + constructor; [exact (IH Hs)|].
      rewrite Forall_forall in Hf |- *. intros w Hw.
      apply insert_uniq_in in Hw as [->|Hw]; [|exact (Hf w Hw)].
      unfold str_lt. rewrite String.compare_antisym, E. reflexivity.
Qed.

Lemma sorted_set_in : forall l y, In y (sorted_set l) <-> In y l.
Proof.
  induction l as [|x l IH]; intros y; simpl; [tauto|].
  rewrite insert_uniq_in, IH. split; intros [H|H]; auto.
Qed.

Lemma sorted_set_sorted : forall l, StronglySorted str_lt (sorted_set l).
Proof.
  induction l as [|x l IH]; simpl; [constructor|].
  exact (insert_uniq_sorted x _ IH).
Qed.

Lemma strongly_sorted_nodup : forall l, StronglySorted str_lt l -> NoDup l.
Proof.
  induction l as [|x l IH]; intros Hs; [constructor|].
  apply StronglySorted_inv in Hs as [Hs Hf]. constructor; [|exact (IH Hs)].
  intros Hx. rewrite Forall_forall in Hf. exact (str_lt_irrefl x (Hf x Hx)).
Qed.

(** A document's tags are sorted in strictly increasing order, hence
    without repetition, and are exactly the front-matter tags together
    with the tags derived from the path and the body. *)
Theorem parse_tags_sorted_union :
  forall hs render content0 src path lu ru fu md fm body,
    parse hs render content0 src path lu ru fu = Some md ->
    extract_frontmatter hs content0 = (fm, body) ->
    exists fm_tag_list,
      fm_tags fm = Some fm_tag_list /\
      StronglySorted str_lt (tags md) /\ NoDup (tags md) /\
      (forall t, In t (tags md) <-> In t fm_tag_list \/ In t (extract_tags path body)).
Proof.
  intros hs render content0 src path lu ru fu md fm body Hp Hx.
  unfold parse in Hp. rewrite Hx in Hp.
  destruct (fm_tags fm) as [ft|] eqn:Ht; [|discriminate].
  injection Hp as <-. exists ft. simpl.
  split; [reflexivity|]. split; [apply sorted_set_sorted|].
  split; [apply strongly_sorted_nodup, sorted_set_sorted|].
  intros t. rewrite sorted_set_in, in_app_iff. tauto.
Qed.

Lemma parse_tags_sorted_union_witness :
  let doc := "---" ++ Samples.nlS ++ "tags: [python, guide]" ++ Samples.nlS ++ "---"
             ++ Samples.nlS ++ "Call the API from Python." ++ Samples.nlS in
  exists md,
    parse Samples.handlers0 Samples.plain_render doc "local" "guide/intro.md" "t" None None
      = Some md /\
    tags md = ["api"; "guide"; "python"] /\
    exists fm_tag_list,
      fm_tags [("tags", YSeq [YStr "python"; YStr "guide"])] = Some fm_tag_list /\
      StronglySorted str_lt (tags md) /\ NoDup (tags md) /\
      (forall t, In t (tags md) <->
                 In t fm_tag_list \/ In t (extract_tags "guide/intro.md"
                                                            "Call the API from Python.")).
Proof.
  intros doc. eexists. split; [vm_compute; reflexivity|]. split; [vm_compute; reflexivity|].
  apply (parse_tags_sorted_union Samples.handlers0 Samples.plain_render doc "local"
           "guide/intro.md" "t" None None); vm_compute; reflexivity.
Defined.

(** The tags [extract_tags] derives: the parent directory of the path,
    lowercased with underscores as hyphens, when the path has at least
    two components, and each technology term occurring in the
    lowercased body. *)
Theorem extract_tags_members :
  forall path body t,
    In t (extract_tags path body) <->
    ((1 < List.length (PyPath.parts path))%nat /\
     t = replace "_" "-" (lower (nth (List.length (PyPath.parts path) - 2)
                                     (PyPath.parts path) ""))) \/
    (In t tech_terms /\ contains t (lower body) = true).
Proof.
  intros path body t. unfold extract_tags.
  rewrite sorted_set_in, in_app_iff, filter_In.
  destruct (1 <? List.length (PyPath.parts path))%nat eqn:E.
  - apply Nat.ltb_lt in E. simpl. split.
    + intros [[H|[]]|H]; [left; auto|right; exact H].
    + intros [[_ H]|H]; [left; left; auto|right; exact H].
  - apply Nat.ltb_ge in E. simpl. split.
    + intros [[]|H]. right. exact H.
    + intros [[H _]|H]; [lia|right; exact H].
Qed.

Lemma lower_char_idem : forall c, lower_char (lower_char c) = lower_char c.
Proof. intros [[] [] [] [] [] [] [] []]; reflexivity. Qed.

Lemma lower_idem : forall s, lower (lower s) = lower s.
Proof.
  induction s as [|c s IH]; simpl; [reflexivity|]. rewrite lower_char_idem, IH. reflexivity.
Qed.

(** Category and body-derived tags ignore ASCII letter case: the category
    depends on the lowercased path only, the tags on the lowercased body. *)
Theorem categorize_extract_tags_case_insensitive :
  forall path body,
    categorize_document (lower path) body = categorize_document path body /\
    extract_tags path (lower body) = extract_tags path body.
Proof.
  intros path body. unfold categorize_document, extract_tags.
  rewrite !lower_idem. split; reflexivity.
Qed.

(** [reading_time] is at least one minute, and is [word_count / 200]
    rounded to the nearest integer: [word_count] lies within 100 words
    of [200 * reading_time], except that short documents count as one
    minute. *)
Theorem reading_time_bounds :
  forall n,
    (1 <= reading_time_of n)%nat /\
    (n <= 200 * reading_time_of n + 100)%nat /\
    ((100 <= n)%nat -> (200 * reading_time_of n <= n + 100)%nat).
Proof.
  intros n. unfold reading_time_of.
  assert (Hd := Nat.div_mod n 200 ltac:(lia)).
  assert (Hm := Nat.mod_upper_bound n 200 ltac:(lia)).
  set (q := n / 200) in *. set (r := n mod 200) in *.
  destruct (r <? 100)%nat eqn:E1; [apply Nat.ltb_lt in E1|apply Nat.ltb_ge in E1].
  - destruct q as [|q']; simpl Nat.max; lia.
  - destruct (100 <? r)%nat eqn:E2; [apply Nat.ltb_lt in E2|apply Nat.ltb_ge in E2].
    + simpl Nat.max. lia.
    + destruct (Nat.even q); destruct q as [|q']; simpl Nat.max; lia.
Qed.

(** ** The title heading *)

Lemma str_app_nil_r : forall s, (s ++ "")%string = s.
Proof. induction s as [|c s IH]; simpl; [reflexivity|]. rewrite IH. reflexivity. Qed.

Lemma line_prefix_app :
  forall t rest, Heading.line_prefix t = t ->
    Heading.line_prefix (t ++ rest) = t ++ Heading.line_prefix rest.
Proof.
  induction t as [|c t IH]; intros rest H; simpl in *; [reflexivity|].
  destruct (Ascii.eqb c nl); [discriminate|].
  injection H as H. rewrite (IH rest H). reflexivity.
Qed.

Lemma ws_star_group_spaces :
  forall w u g, lstrip w = "" -> Heading.ws_star_group u = Some g ->
    Heading.ws_star_group (w ++ u) = Some g.
Proof.
  induction w as [|c w IH]; intros u g Hw Hu; simpl in *; [exact Hu|].
  destruct (is_space c); [|discriminate].
  rewrite (IH u g Hw Hu). reflexivity.
Qed.

(** A document that starts with [#], whitespace, and a line of text [t]
    (starting with a non-space character) has [strip t] as its title.
    The whitespace after [#] may contain line breaks, so the title can
    be taken from a later line. *)
Theorem extract_title_leading_heading :
  forall ws t rest path,
    ws <> "" -> lstrip ws = "" ->
    Heading.line_prefix t = t ->
    match t with String c _ => is_space c = false | EmptyString => False end ->
    Heading.line_prefix rest = "" ->
    extract_title (String "#" (ws ++ t ++ rest)) path = strip t.
Proof.
  intros ws t rest path Hne Hws Ht Hc Hr.
  unfold extract_title, Heading.search.
  destruct ws as [|c' w]; [contradiction|].
  simpl in Hws. destruct (is_space c') eqn:Hsp; [|discriminate].
  assert (Hg : Heading.ws_star_group (t ++ rest) = Some t).
  { assert (Hl : Heading.line_prefix (t ++ rest) = t).
    { rewrite line_prefix_app, Hr by exact Ht. apply str_app_nil_r. }
    destruct t as [|c t']; [contradiction|].
    assert (Hd : Heading.ws_star_group (String c t' ++ rest)
                 = Heading.dot_plus_eol (String c t' ++ rest)).
    { simpl. rewrite Hc. reflexivity. }
    rewrite Hd. unfold Heading.dot_plus_eol. rewrite Hl. reflexivity. }
  simpl. rewrite Hsp. simpl. rewrite (ws_star_group_spaces w _ _ Hws Hg). reflexivity.
Qed.

Lemma extract_title_leading_heading_witness :
  extract_title ("#" ++ Samples.nlS ++ Samples.nlS ++ "Getting started" ++ Samples.nlS
                 ++ "Install the tools.") "docs/setup.md" = "Getting started".
Proof.
  apply (extract_title_leading_heading (Samples.nlS ++ Samples.nlS) "Getting started"
           (Samples.nlS ++ "Install the tools.") "docs/setup.md");
    [discriminate | reflexivity | reflexivity | reflexivity | reflexivity].
Defined.

(** ** Search: requests, limits and sizes *)

Lemma flat_map_all_nil {A B} :
  forall (f : A -> list B) l, (forall x, In x l -> f x = []) -> flat_map f l = [].
Proof.
  intros f l H. induction l as [|x l IH]; simpl; [reflexivity|].
  rewrite (H x (or_introl eq_refl)). apply IH. intros y Hy. apply H. right. exact Hy.
Qed.

Lemma flat_map_ext_in {A B} :
  forall (f g : A -> list B) l, (forall x, In x l -> f x = g x) -> flat_map f l = flat_map g l.
Proof.
  intros f g l H. induction l as [|x l IH]; simpl; [reflexivity|].
  rewrite (H x (or_introl eq_refl)). f_equal. apply IH. intros y Hy. apply H. right. exact Hy.
Qed.

Lemma ok_entities_zero : forall r, Search.ok_entities r 0 = [].
Proof. intros [es|e]; reflexivity. Qed.

Lemma py_take_nil {A} : forall k, Search.py_take (@nil A) k = [].
Proof. intros k. unfold Search.py_take. destruct (0 <=? k)%Z; apply firstn_nil. Qed.

(** With [max_results] 0 or 1, [max_results // 2] and [max_results // 4]
    are 0: no strategy keeps any result, so the search returns nothing
    whatever the endpoint answers. *)
Theorem multi_strategy_search_small_max :
  forall remote query max_results,
    (0 <= max_results <= 1)%Z ->
    Search.multi_strategy_search remote query max_results = [].
Proof.
  intros remote query m Hm.
  assert (H2 : (m / 2 = 0)%Z) by (apply Z.div_small; lia).
  assert (H4 : (m / 4 = 0)%Z) by (apply Z.div_small; lia).
  unfold Search.multi_strategy_search, Search.gather.
  rewrite H2, H4, ok_entities_zero.
  rewrite (flat_map_all_nil _ (split query)).
  - destruct (1 <? List.length (split query))%nat; apply py_take_nil.
  - intros k _. destruct (3 <? String.length k)%nat; [apply ok_entities_zero|reflexivity].
Qed.

Lemma multi_strategy_search_small_max_witness :
  Search.multi_strategy_search Samples.three_entities "python guide" 1 = [].
Proof. apply multi_strategy_search_small_max. lia. Defined.

(** The search result depends only on the endpoint's answers, with limit
    25, for the query itself and, when the query has more than one word,
    for its words longer than 3 characters. *)
Theorem multi_strategy_search_searched_terms :
  forall remote1 remote2 query max_results,
    (forall term,
        term = query \/
        ((1 < List.length (split query))%nat /\ In term (split query) /\
         (3 < String.length term)%nat) ->
        remote1 term 25%Z = remote2 term 25%Z) ->
    Search.multi_strategy_search remote1 query max_results
    = Search.multi_strategy_search remote2 query max_results.
Proof.
  intros r1 r2 query m H.
  assert (Hs : forall term,
             term = query \/
             ((1 < List.length (split query))%nat /\ In term (split query) /\
              (3 < String.length term)%nat) ->
             Search.search_entities r1 term 25 = Search.search_entities r2 term 25).
  { intros term Ht. unfold Search.search_entities. rewrite (H term Ht). reflexivity. }
  unfold Search.multi_strategy_search, Search.gather.
  rewrite (Hs query (or_introl eq_refl)).
  destruct (1 <? List.length (split query))%nat eqn:E; [|reflexivity].
  apply Nat.ltb_lt in E.
  rewrite (flat_map_ext_in _ (fun keyword =>
             if (3 <? String.length keyword)%nat
             then Search.ok_entities (Search.search_entities r2 keyword 25) (m / 4)
             else []) (split query)); [reflexivity|].
  intros k Hk. destruct (3 <? String.length k)%nat eqn:E3; [|reflexivity].
  apply Nat.ltb_lt in E3. rewrite (Hs k (or_intror (conj E (conj Hk E3)))). reflexivity.
Qed.

Lemma multi_strategy_search_searched_terms_witness :
  Search.multi_strategy_search Samples.three_entities "python" 10
  = Search.multi_strategy_search
      (fun term limit => if String.eqb term "python" then Samples.three_entities term limit
                         else Samples.unreachable term limit) "python" 10.
Proof.
  apply multi_strategy_search_searched_terms.
  intros term [->|[Hl _]]; [reflexivity|]. vm_compute in Hl. lia.
Defined.

Lemma length_py_take_le {A} : forall (l : list A) k, (List.length (Search.py_take l k) <= List.length l)%nat.
Proof.
  intros l k. unfold Search.py_take.
  destruct (0 <=? k)%Z; rewrite length_firstn; lia.
Qed.

Lemma length_dedup_go_le :
  forall l seen, (List.length (Search.dedup_go seen l) <= List.length l)%nat.
Proof.
  induction l as [|r l IH]; intros seen; simpl; [lia|].
  destruct (existsb (String.eqb (Search.ident r)) seen); simpl;
    [specialize (IH seen) | specialize (IH (Search.ident r :: seen))]; lia.
Qed.

Lemma length_ok_entities_le :
  forall r k, (0 <= k)%Z -> (List.length (Search.ok_entities r k) <= Z.to_nat k)%nat.
Proof.
  intros [es|e] k Hk; simpl; [|lia].
  rewrite py_take_nonneg by exact Hk. apply firstn_le_length.
Qed.

Lemma length_flat_map_filter_le {A B} :
  forall (f : A -> list B) (p : A -> bool) b l,
    (forall x, (List.length (f x) <= if p x then b else 0)%nat) ->
    (List.length (flat_map f l) <= List.length (filter p l) * b)%nat.
Proof.
  intros f p b l H. induction l as [|x l IH]; simpl; [lia|].
  rewrite length_app. specialize (H x).
  destruct (p x); simpl; lia.
Qed.

(** For [max_results >= 0], the search returns at most
    [max_results // 2] results plus [max_results // 4] for each word
    longer than 3 characters of a query of several words; a one-word
    query gets at most [max_results // 2] results. *)
Theorem multi_strategy_search_length :
  forall remote query max_results,
    (0 <= max_results)%Z ->
    (List.length (Search.multi_strategy_search remote query max_results)
     <= Z.to_nat (max_results / 2)
        + (if (1 <? List.length (split query))%nat
           then List.length (filter (fun k => 3 <? String.length k)%nat (split query))
           else 0) * Z.to_nat (max_results / 4))%nat.
Proof.
  intros remote query m Hm.
  assert (H2 : (0 <= m / 2)%Z) by (apply Z.div_pos; lia).
  assert (H4 : (0 <= m / 4)%Z) by (apply Z.div_pos; lia).
  unfold Search.multi_strategy_search, Search.dedup.
  eapply Nat.le_trans; [apply length_py_take_le|].
  eapply Nat.le_trans; [apply length_dedup_go_le|].
  unfold Search.gather. rewrite length_app.
  apply Nat.add_le_mono; [apply length_ok_entities_le; exact H2|].
  destruct (1 <? List.length (split query))%nat; [|simpl; lia].
  apply length_flat_map_filter_le. intros k.
  destruct (3 <? String.length k)%nat; [apply length_ok_entities_le; exact H4|simpl; lia].
Qed.

Lemma multi_strategy_search_length_witness :
  (List.length (Search.multi_strategy_search Samples.three_entities "python docker api" 10)
   <= 5 + 2 * 2)%nat.
Proof. apply (multi_strategy_search_length Samples.three_entities "python docker api" 10). lia. Defined.

(** ** Ingestion *)

Lemma parse_origin :
  forall hs render content0 src path lu ru fu md,
    parse hs render content0 src path lu ru fu = Some md ->
    source md = src /\ file_path md = path /\ last_updated md = lu /\
    repository_url md = ru /\ file_url md = fu /\
    reading_time md = reading_time_of (word_count md).
Proof.
  intros hs render content0 src path lu ru fu md Hp.
  unfold parse in Hp. destruct (extract_frontmatter hs content0) as [fm body].
  destruct (fm_tags fm); [|discriminate].
  injection Hp as <-. simpl. repeat split.
Qed.

Lemma fm_or_not_none :
  forall k fm s, Ingest.is_none (fm_or k fm (YStr s)) = false.
Proof.
  intros k fm s. unfold fm_or.
  destruct (fm_get k fm) as [v|]; [|reflexivity].
  destruct (truthy v) eqn:E; [|reflexivity].
  destruct v; [discriminate|reflexivity..].
Qed.

(** The properties sent for a parsed document: the nine metadata keys
    always ([summary] and [category] are never [None] after [parse],
    and [tags] is sent even when empty), then [repositoryUrl] and
    [fileUrl] exactly when they were given; the identifier is the
    normalised [source/file_path]. *)
Theorem payload_property_keys :
  forall hs render content0 src path lu ru fu md,
    parse hs render content0 src path lu ru fu = Some md ->
    Ingest.pl_identifier (Ingest.construct_entity_payload md) = entity_identifier src path /\
    map fst (Ingest.pl_properties (Ingest.construct_entity_payload md))
    = (["source"; "filePath"; "content"; "summary"; "category"; "tags";
        "lastUpdated"; "wordCount"; "readingTime"]
       ++ (match ru with Some _ => ["repositoryUrl"] | None => [] end)
       ++ (match fu with Some _ => ["fileUrl"] | None => [] end))%list.
Proof.
  intros hs render content0 src path lu ru fu md Hp.
  unfold parse in Hp. destruct (extract_frontmatter hs content0) as [fm body].
  destruct (fm_tags fm); [|discriminate].
  injection Hp as <-. unfold Ingest.construct_entity_payload.
  cbn [Ingest.pl_identifier Ingest.pl_properties source file_path summary category
       repository_url file_url].
  split; [reflexivity|].
  cbn [filter snd]. rewrite !fm_or_not_none.
  destruct ru, fu; reflexivity.
Qed.

Lemma payload_property_keys_witness :
  exists md,
    parse Samples.handlers0 Samples.plain_render Samples.header_only_doc "github"
      "org/repo/README.md" "2024-01-01T00:00:00+00:00"
      (Some "https://github.com/org/repo") None = Some md /\
    Ingest.pl_identifier (Ingest.construct_entity_payload md)
    = entity_identifier "github" "org/repo/README.md" /\
    map fst (Ingest.pl_properties (Ingest.construct_entity_payload md))
    = (["source"; "filePath"; "content"; "summary"; "category"; "tags";
       "lastUpdated"; "wordCount"; "readingTime"] ++ ["repositoryUrl"] ++ [])%list.
Proof.
  eexists. split; [vm_compute; reflexivity|].
  apply (payload_property_keys Samples.handlers0 Samples.plain_render Samples.header_only_doc
           "github" "org/repo/README.md" "2024-01-01T00:00:00+00:00"
           (Some "https://github.com/org/repo") None).
  vm_compute. reflexivity.
Defined.

Lemma fm_get_dict_set_same :
  forall k v d, fm_get k (Ingest.dict_set k v d) = Some v.
Proof.
  intros k v d. induction d as [|[k' v'] d IH]; simpl.
  - rewrite String.eqb_refl. reflexivity.
  - destruct (String.eqb k k') eqn:E; simpl; rewrite E; [reflexivity|exact IH].
Qed.

Lemma fm_get_dict_set_other :
  forall k k' v d, k' <> k -> fm_get k' (Ingest.dict_set k v d) = fm_get k' d.
Proof.
  intros k k' v d Hne. induction d as [|[k0 v0] d IH]; simpl.
  - apply String.eqb_neq in Hne. rewrite Hne. reflexivity.
  - destruct (String.eqb k k0) eqn:E; simpl.
    + apply String.eqb_eq in E. subst k0.
      apply String.eqb_neq in Hne. rewrite Hne. reflexivity.
    + destruct (String.eqb k' k0); [reflexivity|exact IH].
Qed.

(** [setup_blueprint] succeeds only for a file holding a JSON object; the
    blueprint it writes has the identifier ["documentation"] and the
    file's other keys unchanged; it is updated with PUT when the GET of
    [/v1/blueprints/documentation] answers 200, and created with a POST
    to [/v1/blueprints] otherwise, and the write's status is not an HTTP
    error. *)
Theorem setup_blueprint_success :
  forall http file,
    Ingest.setup_blueprint http file = true ->
    exists m data,
      file = Ingest.Loaded (YMap m) /\
      fm_get "identifier" data = Some (YStr "documentation") /\
      (forall k, k <> "identifier" -> fm_get k data = fm_get k m) /\
      ((http (Ingest.Get (Ingest.UBlueprint (YStr "documentation"))) = Ingest.Status 200 /\
        exists c, http (Ingest.Put (Ingest.UBlueprint (YStr "documentation")) data)
                  = Ingest.Status c /\ Ingest.is_http_error c = false) \/
       (exists g, g <> 200%Z /\
                  http (Ingest.Get (Ingest.UBlueprint (YStr "documentation"))) = Ingest.Status g /\
        exists c, http (Ingest.PostBlueprint Ingest.UBlueprints data)
                  = Ingest.Status c /\ Ingest.is_http_error c = false)).
Proof.
  intros http file H.
  destruct file as [| |v]; try discriminate.
  destruct v as [| | | | |m]; try discriminate.
  unfold Ingest.setup_blueprint in H.
  set (data := if Ingest.is_blueprint_id (fm_get "identifier" m) then m
               else Ingest.dict_set "identifier" (YStr Ingest.BLUEPRINT_ID) m) in H.
  assert (Hid : fm_get "identifier" data = Some (YStr "documentation")).
  { unfold data. destruct (Ingest.is_blueprint_id (fm_get "identifier" m)) eqn:E.
    - destruct (fm_get "identifier" m) as [[| | |s| |]|]; try discriminate.
      simpl in E. apply String.eqb_eq in E. subst s. reflexivity.
    - apply fm_get_dict_set_same. }
  assert (Hother : forall k, k <> "identifier" -> fm_get k data = fm_get k m).
  { intros k Hk. unfold data.
    destruct (Ingest.is_blueprint_id (fm_get "identifier" m)); [reflexivity|].
    apply fm_get_dict_set_other. exact Hk. }
  clearbody data. exists m, data.
  split; [reflexivity|]. split; [exact Hid|]. split; [exact Hother|].
  unfold Ingest.create_blueprint in H. rewrite Hid in H. simpl truthy in H.
  cbv iota beta in H.
  destruct (http (Ingest.Get (Ingest.UBlueprint (YStr "documentation")))) as [g|msg] eqn:Eg;
    [|discriminate].
  destruct (Z.eqb g 200) eqn:E200.
  - apply Z.eqb_eq in E200. subst g. left. split; [reflexivity|].
    destruct (http (Ingest.Put _ data)) as [c|msg]; [|discriminate].
    exists c. split; [reflexivity|]. destruct (Ingest.is_http_error c); auto.
  - apply Z.eqb_neq in E200. right. exists g. split; [exact E200|]. split; [reflexivity|].
    destruct (http (Ingest.PostBlueprint _ data)) as [c|msg]; [|discriminate].
    exists c. split; [reflexivity|]. destruct (Ingest.is_http_error c); auto.
Qed.

Lemma setup_blueprint_success_witness :
  Ingest.setup_blueprint IngestSamples.fresh_api IngestSamples.docs_blueprint_file = true /\
  exists m data,
    IngestSamples.docs_blueprint_file = Ingest.Loaded (YMap m) /\
    fm_get "identifier" data = Some (YStr "documentation") /\
    (forall k, k <> "identifier" -> fm_get k data = fm_get k m) /\
    ((IngestSamples.fresh_api (Ingest.Get (Ingest.UBlueprint (YStr "documentation")))
      = Ingest.Status 200 /\
      exists c, IngestSamples.fresh_api (Ingest.Put (Ingest.UBlueprint (YStr "documentation")) data)
                = Ingest.Status c /\ Ingest.is_http_error c = false) \/
     (exists g, g <> 200%Z /\
                IngestSamples.fresh_api (Ingest.Get (Ingest.UBlueprint (YStr "documentation")))
                = Ingest.Status g /\
      exists c, IngestSamples.fresh_api (Ingest.PostBlueprint Ingest.UBlueprints data)
                = Ingest.Status c /\ Ingest.is_http_error c = false)).
Proof.
  split; [reflexivity|].
  apply setup_blueprint_success. reflexivity.
Defined.

(** ** The local fetcher *)

Lemma existsb_eqb_in : forall x l, existsb (String.eqb x) l = true <-> In x l.
Proof.
  intros x l. rewrite existsb_exists. split.
  - intros [y [Hy E]]. apply String.eqb_eq in E. subst. exact Hy.
  - intros H. exists x. split; [exact H|apply String.eqb_refl].
Qed.

(** [fetch_documents] yields nothing for a path that is not a directory.
    Otherwise it yields exactly one document for each accepted scanned
    path, in scan order: the document [parse] gives for the file's
    content, with source ["local"], the relative path and the
    modification time.  A file that fails is skipped without affecting
    the others. *)
Theorem fetch_documents_scan :
  forall hs render entries exts,
    Local.fetch_documents hs render false entries exts = [] /\
    Forall2 (fun e md =>
               In (lower (Local.suffix (Local.fs_rel_path e))) exts /\
               Local.fs_is_file e = true /\
               exists content0 mtime,
                 Local.fs_read e = Some content0 /\ Local.fs_mtime_iso e = Some mtime /\
                 parse hs render content0 "local" (Local.fs_rel_path e) mtime None None = Some md)
            (filter (Local.accepted hs render exts) entries)
            (Local.fetch_documents hs render true entries exts).
Proof.
  intros hs render entries exts. split; [reflexivity|].
  unfold Local.fetch_documents.
  induction entries as [|e entries IH]; simpl; [constructor|].
  unfold Local.accepted at 1, Local.fetch_one at 1.
  destruct (existsb _ exts) eqn:Ex; simpl; [|exact IH].
  destruct (Local.fs_is_file e) eqn:Ef; simpl; [|exact IH].
  destruct (Local.fs_read e) as [c|] eqn:Er; [|exact IH].
  destruct (Local.fs_mtime_iso e) as [t|] eqn:Et; [|exact IH].
  destruct (parse _ _ c _ _ t _ _) as [md|] eqn:Ep; [|exact IH].
  simpl. constructor; [|exact IH].
  apply existsb_eqb_in in Ex. split; [exact Ex|]. split; [exact Ef|].
  exists c, t. auto.
Qed.

(** Every document the fetcher yields has source ["local"], no
    repository or file URL, and a path whose lowercased suffix is one of
    the accepted extensions; at most one document is yielded per scanned
    path. *)
Theorem fetch_documents_output :
  forall hs render is_dir entries exts,
    (List.length (Local.fetch_documents hs render is_dir entries exts)
     <= List.length entries)%nat /\
    forall md, In md (Local.fetch_documents hs render is_dir entries exts) ->
      source md = "local" /\ repository_url md = None /\ file_url md = None /\
      In (lower (Local.suffix (file_path md))) exts.
Proof.
  intros hs render is_dir entries exts. split.
  - unfold Local.fetch_documents. destruct is_dir; [|simpl; lia].
    induction entries as [|e entries IH]; simpl; [lia|].
    rewrite length_app. enough (List.length (Local.fetch_one hs render exts e) <= 1)%nat by lia.
    unfold Local.fetch_one.
    destruct (existsb _ exts && Local.fs_is_file e); [|simpl; lia].
    destruct (Local.fs_read e), (Local.fs_mtime_iso e); simpl; try lia.
    destruct (parse _ _ _ _ _ _ _ _); simpl; lia.
  - intros md Hin. unfold Local.fetch_documents in Hin.
    destruct is_dir; [|contradiction].
    apply in_flat_map in Hin as [e [_ Hin]]. unfold Local.fetch_one in Hin.
    destruct (existsb _ exts) eqn:Ex; [|contradiction].
    destruct (Local.fs_is_file e); [|contradiction].
    destruct (Local.fs_read e) as [c|]; [|contradiction].
    destruct (Local.fs_mtime_iso e) as [t|]; [|contradiction].
    destruct (parse _ _ c _ _ t _ _) as [md'|] eqn:Ep; [|contradiction].
    destruct Hin as [<-|[]].
    destruct (parse_origin _ _ _ _ _ _ _ _ _ Ep) as [-> [-> [_ [-> [-> _]]]]].
    apply existsb_eqb_in in Ex. auto.
Qed.

Lemma fetch_documents_output_witness :
  exists md,
    Local.fetch_documents Samples.handlers0 Samples.plain_render true IngestSamples.scan
      Local.default_extensions = [md] /\
    source md = "local" /\ repository_url md = None /\ file_url md = None /\
    In (lower (Local.suffix (file_path md))) Local.default_extensions.
Proof.
  eexists. split; [vm_compute; reflexivity|].
  apply (proj2 (fetch_documents_output Samples.handlers0 Samples.plain_render true
                  IngestSamples.scan Local.default_extensions)).
  vm_compute. left. reflexivity.
Defined.

(** ** Front matter round trip *)

Lemma str_app_assoc : forall a b c, ((a ++ b) ++ c)%string = (a ++ (b ++ c))%string.
Proof. induction a as [|x a IH]; intros b c; simpl; [reflexivity|]. rewrite IH. reflexivity. Qed.

Lemma rstrip_cons :
  forall c r, rstrip r <> "" -> rstrip (String c r) = String c (rstrip r).
Proof.
  intros c r H. simpl. destruct (String.eqb (rstrip r) "") eqn:E.
  - apply String.eqb_eq in E. contradiction.
  - rewrite andb_false_r. reflexivity.
Qed.

Lemma rstrip_app :
  forall a b, rstrip b <> "" -> rstrip (a ++ b) = a ++ rstrip b.
Proof.
  induction a as [|c a IH]; intros b H; [reflexivity|].
  simpl (String c a ++ b). rewrite rstrip_cons; [rewrite IH by exact H; reflexivity|].
  rewrite IH by exact H. destruct a; [exact H|discriminate].
Qed.

Lemma rstrip_idem : forall s, rstrip (rstrip s) = rstrip s.
Proof.
  induction s as [|c s IH]; [reflexivity|].
  simpl. destruct (is_space c && String.eqb (rstrip s) "") eqn:E; [reflexivity|].
  simpl. rewrite IH, E. reflexivity.
Qed.

Lemma lstrip_rstrip : forall s, lstrip (rstrip s) = rstrip (lstrip s).
Proof.
  induction s as [|c s IH]; [reflexivity|].
  simpl. destruct (is_space c) eqn:Hc; simpl.
  - destruct (String.eqb (rstrip s) "") eqn:E.
    + apply String.eqb_eq in E. rewrite <- IH, E. reflexivity.
    + simpl. rewrite Hc. exact IH.
  - rewrite Hc. reflexivity.
Qed.

Lemma ws_eol_len_drop :
  forall t w, ws_eol_len t = Some w -> lstrip (drop w t) = lstrip t.
Proof.
  induction t as [|c t IH]; intros w H.
  - simpl in H. injection H as <-. reflexivity.
  - destruct w as [|w]; [reflexivity|].
    simpl in H. destruct (is_space c) eqn:Hc.
    + destruct (ws_eol_len t) as [k|] eqn:Ek; simpl in H.
      * injection H as <-. simpl. rewrite Hc. exact (IH k eq_refl).
      * destruct (Ascii.eqb c nl); discriminate.
    + destruct (Ascii.eqb c nl); discriminate.
Qed.

Lemma find_boundary_skip_line :
  forall bm s rest, Heading.line_prefix s = s ->
    find_boundary bm false (s ++ rest)
    = match find_boundary bm false rest with
      | Some (p, r, b) => Some (s ++ p, r, b)
      | None => None
      end.
Proof.
  intros bm s rest. induction s as [|c s IH]; intros H.
  - change ("" ++ rest) with rest.
    destruct (find_boundary bm false rest) as [[[p r] b]|]; reflexivity.
  - simpl in H. destruct (Ascii.eqb c nl) eqn:Ec; [discriminate|].
    injection H as H. simpl. rewrite Ec, (IH H).
    destruct (find_boundary bm false rest) as [[[p r] b]|]; reflexivity.
Qed.

Lemma find_boundary_true :
  forall bm s, find_boundary bm true s
    = match bm s with
      | Some n => Some ("", drop n s, last_char_is_nl (take n s))
      | None =>
          match s with
          | EmptyString => None
          | String c s' =>
              match find_boundary bm (Ascii.eqb c nl) s' with
              | Some (p, r, b) => Some (String c p, r, b)
              | None => None
              end
          end
      end.
Proof. intros bm [|c s]; reflexivity. Qed.

Lemma find_boundary_false_cons :
  forall bm c s, find_boundary bm false (String c s)
    = match find_boundary bm (Ascii.eqb c nl) s with
      | Some (p, r, b) => Some (String c p, r, b)
      | None => None
      end.
Proof. reflexivity. Qed.

Lemma fence_dash3 :
  forall t, fence_boundary "-" ("---" ++ String nl t)
            = option_map (fun w => 3 + w)%nat (ws_eol_len (String nl t)).
Proof. reflexivity. Qed.

Lemma ws_eol_len_nl :
  forall t, ws_eol_len (String nl t)
            = match option_map S (ws_eol_len t) with Some k => Some k | None => Some 0%nat end.
Proof. reflexivity. Qed.

Lemma line_prefix_cons :
  forall c s, Heading.line_prefix (String c s) = String c s ->
    Ascii.eqb c nl = false /\ Heading.line_prefix s = s.
Proof.
  intros c s H. simpl in H. destruct (Ascii.eqb c nl); [discriminate|].
  injection H as H. split; [reflexivity|exact H].
Qed.

Lemma line_prefix_drop :
  forall k s, Heading.line_prefix s = s -> Heading.line_prefix (drop k s) = drop k s.
Proof.
  induction k as [|k IH]; intros [|c s] H; simpl; auto.
  apply IH. exact (proj2 (line_prefix_cons c s H)).
Qed.

Lemma char_run_le : forall d s, (char_run d s <= String.length s)%nat.
Proof.
  intros d. induction s as [|c s IH]; simpl; [lia|].
  destruct (Ascii.eqb c d); lia.
Qed.

Lemma drop_app :
  forall k a b, (k <= String.length a)%nat -> drop k (a ++ b) = (drop k a ++ b)%string.
Proof.
  induction k as [|k IH]; intros [|c a] b H; simpl in *; try reflexivity; [lia|].
  apply IH. lia.
Qed.

Lemma char_run_dash_line :
  forall s r, Heading.line_prefix s = s ->
    char_run "-" (s ++ String nl r) = char_run "-" s.
Proof.
  induction s as [|c s IH]; intros r H; [reflexivity|].
  destruct (line_prefix_cons c s H) as [_ Hs].
  simpl. rewrite (IH r Hs). reflexivity.
Qed.

Lemma ws_eol_len_line_none :
  forall u r, Heading.line_prefix u = u -> ws_eol_len u = None ->
    ws_eol_len (u ++ String nl r) = None.
Proof.
  induction u as [|c u IH]; intros r H Hn; [discriminate|].
  destruct (line_prefix_cons c u H) as [Hc Hu].
  simpl in Hn |- *. rewrite Hc in Hn |- *.
  destruct (is_space c); [|reflexivity].
  destruct (ws_eol_len u) eqn:E; [discriminate|].
  rewrite (IH r Hu eq_refl). reflexivity.
Qed.

Lemma ws_eol_len_nonblank :
  forall u, Heading.line_prefix u = u -> lstrip u <> "" -> ws_eol_len u = None.
Proof.
  induction u as [|c u IH]; intros H Hb; [contradiction|].
  destruct (line_prefix_cons c u H) as [Hc Hu].
  simpl in Hb |- *. rewrite Hc.
  destruct (is_space c); [|reflexivity].
  rewrite (IH Hu Hb). reflexivity.
Qed.

(** A line that is not a [---] boundary line is not one whatever follows
    its line break. *)
Lemma fence_boundary_line_none :
  forall s r, Heading.line_prefix s = s -> fence_boundary "-" s = None ->
    fence_boundary "-" (s ++ String nl r) = None.
Proof.
  intros s r H Hn. unfold fence_boundary in *.
  rewrite (char_run_dash_line s r H).
  destruct (char_run "-" s <? 3)%nat; [reflexivity|].
  rewrite drop_app by apply char_run_le.
  destruct (ws_eol_len (drop (char_run "-" s) s)) eqn:E; [discriminate|].
  rewrite (ws_eol_len_line_none _ r (line_prefix_drop _ _ H) E). reflexivity.
Qed.

(** A document made of a [---] line, one line of YAML front matter, a
    [---] line and a non-blank body loads as the mapping YAML gives for
    that line (passed to the loader with its surrounding line breaks)
    and the stripped body.  The front-matter line is any non-blank line
    that is not itself a [---] boundary line; the mapping is one [Post]
    accepts: a [YMap] has string keys (a mapping with another key makes
    [Post(..., **metadata)] raise, which this model reports as a load
    failure), and it has no [content] or [handler] key. *)
Theorem extract_frontmatter_yaml_round_trip :
  forall yaml_load json_load line body m,
    Heading.line_prefix line = line ->
    lstrip line <> "" ->
    fence_boundary "-" line = None ->
    rstrip body <> "" ->
    yaml_load (String nl (line ++ String nl "")) = Some (YMap m) ->
    fm_get "content" m = None -> fm_get "handler" m = None ->
    extract_frontmatter (default_handlers yaml_load json_load)
      ("---" ++ String nl (line ++ String nl ("---" ++ String nl body))) = (m, strip body).
Proof.
  intros yl jl line body m Hnl Hne Hnb Hb Hy Hc Hh.
  set (bm := fence_boundary "-").
  set (rest := "---" ++ String nl (rstrip body)).
  (* the text after [strip] *)
  assert (Hstrip : strip ("---" ++ String nl (line ++ String nl ("---" ++ String nl body)))
                   = "---" ++ String nl (line ++ String nl rest)).
  { unfold strip, rest. simpl lstrip.
    assert (Hn : forall a, rstrip (a ++ body) = a ++ rstrip body) by (intros a; apply rstrip_app, Hb).
    set (P := "---" ++ String nl (line ++ String nl ("---" ++ String nl ""))).
    assert (E : String "-" (String "-" (String "-" (String nl
                  (line ++ String nl (String "-" (String "-" (String "-" (String nl body)))))))) = P ++ body).
    { unfold P. simpl. rewrite str_app_assoc. reflexivity. }
    rewrite E, Hn. unfold P. simpl. rewrite str_app_assoc. reflexivity. }
  (* the first boundary: [---] with no trailing whitespace *)
  assert (Hb1 : bm ("---" ++ String nl (line ++ String nl rest)) = Some 3%nat).
  { unfold bm. rewrite fence_dash3, ws_eol_len_nl.
    rewrite (ws_eol_len_line_none line rest Hnl (ws_eol_len_nonblank line Hnl Hne)).
    reflexivity. }
  (* the second boundary: the [---] line after the front matter *)
  destruct (ws_eol_len (String nl (rstrip body))) as [w|] eqn:Hw;
    [|rewrite ws_eol_len_nl in Hw; destruct (option_map S _); discriminate].
  assert (Hb2 : bm rest = Some (3 + w)%nat).
  { unfold bm, rest. rewrite fence_dash3, Hw. reflexivity. }
  assert (Hsplit : split2 bm ("---" ++ String nl (line ++ String nl rest))
                   = Some (String nl (line ++ String nl ""), drop (3 + w) rest)).
  { unfold split2.
    rewrite find_boundary_true, Hb1.
    assert (Ed : drop 3 ("---" ++ String nl (line ++ String nl rest))
                 = String nl (line ++ String nl rest)) by reflexivity.
    assert (Et : last_char_is_nl (take 3 ("---" ++ String nl (line ++ String nl rest)))
                 = false) by reflexivity.
    rewrite Ed, Et.
    rewrite find_boundary_false_cons. change (Ascii.eqb nl nl) with true.
    rewrite find_boundary_true.
    assert (Hbc : bm (line ++ String nl rest) = None).
    { unfold bm. apply fence_boundary_line_none; assumption. }
    rewrite Hbc.
    destruct line as [|c l]; [contradiction|].
    destruct (line_prefix_cons c l Hnl) as [Hcn Hl].
    change (String c l ++ String nl rest) with (String c (l ++ String nl rest)).
    cbv beta iota. rewrite Hcn.
    rewrite (find_boundary_skip_line bm l (String nl rest) Hl).
    rewrite find_boundary_false_cons. change (Ascii.eqb nl nl) with true.
    rewrite find_boundary_true, Hb2.
    reflexivity. }
  unfold extract_frontmatter, fm_loads.
  assert (Hsel : select_handler (default_handlers yl jl)
                   ("---" ++ String nl (line ++ String nl ("---" ++ String nl body)))
                 = Some (yaml_handler yl)).
  { unfold select_handler, detect_format, default_handlers, yaml_handler.
    cbn [detect_in h_boundary]. rewrite fence_dash3, ws_eol_len_nl.
    destruct (option_map S _); reflexivity. }
  rewrite Hsel, Hstrip. simpl h_boundary. fold bm. rewrite Hsplit.
  cbn [h_load h_wrap yaml_handler]. rewrite Hy, Hc, Hh. f_equal.
  unfold rest. simpl drop.
  unfold strip. rewrite (ws_eol_len_drop _ _ Hw). simpl lstrip.
  rewrite lstrip_rstrip, rstrip_idem. reflexivity.
Qed.

Lemma extract_frontmatter_yaml_round_trip_witness :
  extract_frontmatter Samples.handlers0
    ("---" ++ String nl ("  title: Intro" ++ String nl ("---" ++ String nl ("Text." ++ String nl ""))))
  = ([("title", YStr "Intro")], strip ("Text." ++ String nl "")).
Proof.
  apply (extract_frontmatter_yaml_round_trip Samples.flat_yaml_load Samples.failing_load
           "  title: Intro" ("Text." ++ String nl "") [("title", YStr "Intro")]).
  - reflexivity.
  - discriminate.
  - reflexivity.
  - discriminate.
  - vm_compute. reflexivity.
  - reflexivity.
  - reflexivity.
Defined.

(** ** Entity identifiers *)

Lemma get_replace :
  forall a b s i, String.get i (replace a b s)
                  = option_map (fun x => if Ascii.eqb x a then b else x) (String.get i s).
Proof. intros a b s. induction s as [|c s IH]; intros [|i]; simpl; auto. Qed.

Lemma get_lower :
  forall s i, String.get i (lower s) = option_map lower_char (String.get i s).
Proof. intros s. induction s as [|c s IH]; intros [|i]; simpl; auto. Qed.

Lemma lower_char_not_upper : forall c, is_upper (lower_char c) = false.
Proof. intros [[] [] [] [] [] [] [] []]; reflexivity. Qed.

(** An entity identifier contains no space and no upper-case ASCII
    letter, whatever the source and path. *)
Theorem entity_identifier_chars :
  forall src path i c,
    String.get i (entity_identifier src path) = Some c ->
    c <> " "%char /\ is_upper c = false.
Proof.
  intros src path i c H. unfold entity_identifier in H.
  rewrite get_replace, get_lower in H.
  destruct (String.get i (src ++ "/" ++ path)) as [x|]; [|discriminate].
  simpl in H. injection H as <-.
  destruct (Ascii.eqb (lower_char x) " ") eqn:E.
  - split; [discriminate|reflexivity].
  - split; [apply Ascii.eqb_neq; exact E|apply lower_char_not_upper].
Qed.

Lemma entity_identifier_chars_witness :
  String.get 8 (entity_identifier "local" "My Docs/Intro.md") = Some "-"%char /\
  "-"%char <> " "%char /\ is_upper "-"%char = false.
Proof.
  split; [reflexivity|].
  apply (entity_identifier_chars "local" "My Docs/Intro.md" 8). reflexivity.
Defined.
